(** * ipyida/kernel.py: the bridge between IDA's console and an embedded
      IPython kernel

    A shallow embedding of [src/ipyida/kernel.py].  The module is glue code
    around three collaborators it does not define: the host (IDA's console
    objects, [idaapi]'s timers, [os.environ]), the engine ([IPKernelApp], its
    kernel, shell and [OutStream]) and the interpreter's [sys] module.

    - Python objects the module does not define are known by identity
      ([Obj id]); the process-wide slots of [sys] and the attributes of the
      engine singleton that the module reads are fields of [process].
    - Every call that leaves the module is recorded in a [trace] and then
      handed to the collaborator, an arbitrary function on [process] that
      returns or raises ([Env]).
    - Code runs in a state and exception monad [M]: a raise keeps the state
      reached so far, which is what [try]/[finally] and half-done methods
      need.

    Not modelled: the [logging] calls of [start]. *)

From Stdlib Require Import Floats ZArith Ascii String.
From stdpp Require Import gmap strings list.

Open Scope Z_scope.
Open Scope string_scope.
Open Scope list_scope.

(** ** Values *)

(** [None], or an object defined outside this module, by identity.  [Obj] is
    an object that is true in an [if], as objects are unless their class says
    otherwise; [Falsy] is one that its [__bool__] or [__len__] makes false. *)
Inductive pyobj :=
| PyNone
| Obj (id : nat)
| Falsy (id : nat).

(** What [sys.stdout] and [sys.stderr] can hold: an object from outside, or
    an instance of the class [IDATeeOutStream] defined here, which is known by
    its [name] attribute, the only one [write] reads. *)
Inductive stream :=
| Plain (o : pyobj)
| IDATeeOutStream (name : string).

(** A module object: [sys.modules[...]].  IDAPython stores the interpreter's
    original streams as attributes of [__main__]. *)
Record pymodule := {
  module_id : nat;
  _orig_stdout : option pyobj;
  _orig_stderr : option pyobj;
}.

(** Callables held by [sys.excepthook] and [sys.displayhook]: one defined
    outside the module, or one of the two closures built by [wrap_excepthook]
    and [wrap_displayhook].  A closure carries the variable it captures (the
    argument of the wrapper) and the module global it reads when called
    ([_ida_excepthook], [_ida_displayhook]), which is assigned once, at
    import. *)
Inductive callback :=
| Extern (id : nat)
| ipyida_excepthook (_ida_excepthook ipython_excepthook : callback)
| ipyida_displayhook (_ida_displayhook ipython_displayhook : callback).

(** The closure [ipython_kernel_iteration] of [start], the only callable the
    module hands to [idaapi.register_timer]. *)
Inductive timer_callback :=
| ipython_kernel_iteration_closure.

Inductive exn :=
| Exception (msg : string)
| KeyError (key : string)
| AttributeError (attr : string)
| ValueError
| OverflowError
| Foreign (tag : nat).

Inductive outcome (A : Type) :=
| Return (a : A)
| Raise (e : exn).
Arguments Return {A} a.
Arguments Raise {A} e.

(** ** State *)

(** The part of the process the collaborators can change. *)
Record process := {
  sys_stdout : stream;
  sys_stderr : stream;
  sys_excepthook : callback;
  sys_displayhook : callback;
  sys_modules : gmap string pymodule;
  exec_files : list string;                     (* IPKernelApp.exec_files *)
  app_connection_file : string;                 (* app.connection_file *)
  _orig_sys_modules_main_mod : option pymodule; (* app.kernel.shell.<same> *)
  _orig_sys_modules_main_name : string;         (* app.kernel.shell.<same> *)
}.

(** Calls that leave the module, in the order they are made. *)
Inductive event :=
| EvWrite (o : pyobj) (s : string)
| EvOutStreamWrite (name : string) (s : string)
| EvOutStreamSetupStreamRedirects (name : string) (out err : stream)
| EvCall (f : nat) (args : list pyobj)
| EvInstance
| EvInitialize (argv : option (list string))
| EvSetCompleterFrame
| EvKernelStart
| EvDoOneIteration
| EvRegisterTimer (interval : Z) (cb : timer_callback) (handle : nat)
| EvUnregisterTimer (handle : nat).

Record world := {
  proc : process;
  app_initialized : bool;                       (* IPKernelApp.initialized() *)
  timers : list (nat * Z * timer_callback);     (* idaapi's registered timers *)
  next_timer : nat;
  trace : list event;
}.

(** The collaborators.  Each operation of the host or the engine is a function
    on [process] that returns or raises. *)
Record Env := {
  environ : gmap string string;                 (* os.environ *)
  IPYIDARC_PATH : string;
  path_exists : string -> bool;                 (* os.path.exists *)
  obj_write : nat -> string -> process -> outcome unit * process;
  extern_call : nat -> list pyobj -> process -> outcome unit * process;
  Kernel_has_process_one : bool;  (* hasattr(ipykernel.kernelbase.Kernel, "process_one") *)
  _poll_interval : float;                       (* app.kernel._poll_interval *)
  app_initialize : option (list string) -> process -> outcome unit * process;
  shell_set_completer_frame : process -> outcome unit * process;
  kernel_start : process -> outcome unit * process;
  kernel_do_one_iteration : process -> outcome unit * process;
  OutStream_write : string -> string -> process -> outcome unit * process;
  OutStream_setup_stream_redirects :
    string -> process -> outcome pyobj * process;
}.

(** The module globals assigned at import (lines 23, 24, 39, 43): the Saved
    Host Handles. *)
Record Saved := {
  _ida_stdout : pyobj;
  _ida_stderr : pyobj;
  _ida_excepthook : callback;
  _ida_displayhook : callback;
}.

(** Import of the module: the four globals are whatever [sys] holds then.  The
    class [IDATeeOutStream] does not exist before the import, so the streams
    are objects from outside. *)
Definition module_load (stdout stderr : pyobj) (excepthook displayhook : callback)
  : Saved :=
  {| _ida_stdout := stdout; _ida_stderr := stderr;
     _ida_excepthook := excepthook; _ida_displayhook := displayhook |}.

(** ** Field updates *)

Definition set_sys_stdout (f : stream) (p : process) : process :=
  {| sys_stdout := f; sys_stderr := sys_stderr p;
     sys_excepthook := sys_excepthook p; sys_displayhook := sys_displayhook p;
     sys_modules := sys_modules p; exec_files := exec_files p;
     app_connection_file := app_connection_file p;
     _orig_sys_modules_main_mod := _orig_sys_modules_main_mod p;
     _orig_sys_modules_main_name := _orig_sys_modules_main_name p |}.

Definition set_sys_stderr (f : stream) (p : process) : process :=
  {| sys_stdout := sys_stdout p; sys_stderr := f;
     sys_excepthook := sys_excepthook p; sys_displayhook := sys_displayhook p;
     sys_modules := sys_modules p; exec_files := exec_files p;
     app_connection_file := app_connection_file p;
     _orig_sys_modules_main_mod := _orig_sys_modules_main_mod p;
     _orig_sys_modules_main_name := _orig_sys_modules_main_name p |}.

Definition set_sys_excepthook (h : callback) (p : process) : process :=
  {| sys_stdout := sys_stdout p; sys_stderr := sys_stderr p;
     sys_excepthook := h; sys_displayhook := sys_displayhook p;
     sys_modules := sys_modules p; exec_files := exec_files p;
     app_connection_file := app_connection_file p;
     _orig_sys_modules_main_mod := _orig_sys_modules_main_mod p;
     _orig_sys_modules_main_name := _orig_sys_modules_main_name p |}.

Definition set_sys_displayhook (h : callback) (p : process) : process :=
  {| sys_stdout := sys_stdout p; sys_stderr := sys_stderr p;
     sys_excepthook := sys_excepthook p; sys_displayhook := h;
     sys_modules := sys_modules p; exec_files := exec_files p;
     app_connection_file := app_connection_file p;
     _orig_sys_modules_main_mod := _orig_sys_modules_main_mod p;
     _orig_sys_modules_main_name := _orig_sys_modules_main_name p |}.

Definition set_sys_modules (m : gmap string pymodule) (p : process) : process :=
  {| sys_stdout := sys_stdout p; sys_stderr := sys_stderr p;
     sys_excepthook := sys_excepthook p; sys_displayhook := sys_displayhook p;
     sys_modules := m; exec_files := exec_files p;
     app_connection_file := app_connection_file p;
     _orig_sys_modules_main_mod := _orig_sys_modules_main_mod p;
     _orig_sys_modules_main_name := _orig_sys_modules_main_name p |}.

Definition set_exec_files (l : list string) (p : process) : process :=
  {| sys_stdout := sys_stdout p; sys_stderr := sys_stderr p;
     sys_excepthook := sys_excepthook p; sys_displayhook := sys_displayhook p;
     sys_modules := sys_modules p; exec_files := l;
     app_connection_file := app_connection_file p;
     _orig_sys_modules_main_mod := _orig_sys_modules_main_mod p;
     _orig_sys_modules_main_name := _orig_sys_modules_main_name p |}.

Definition set_proc (p : process) (w : world) : world :=
  {| proc := p; app_initialized := app_initialized w; timers := timers w;
     next_timer := next_timer w; trace := trace w |}.

Definition set_app_initialized (b : bool) (w : world) : world :=
  {| proc := proc w; app_initialized := b; timers := timers w;
     next_timer := next_timer w; trace := trace w |}.

Definition log (ev : event) (w : world) : world :=
  {| proc := proc w; app_initialized := app_initialized w; timers := timers w;
     next_timer := next_timer w; trace := trace w ++ [ev] |}.

(** ** The monad *)

Definition M (S A : Type) : Type := S -> outcome A * S.

Definition ret {S A} (a : A) : M S A := fun s => (Return a, s).

Definition bind {S A B} (m : M S A) (k : A -> M S B) : M S B :=
  fun s => match m s with
           | (Return a, s') => k a s'
           | (Raise e, s') => (Raise e, s')
           end.

Definition raise {S A} (e : exn) : M S A := fun s => (Raise e, s).

Definition gets {S A} (f : S -> A) : M S A := fun s => (Return (f s), s).

Definition modify {S} (f : S -> S) : M S unit := fun s => (Return tt, f s).

(** [try: body finally: handler].  The handler runs whatever the body did; an
    exception of the handler replaces the outcome of the body. *)
Definition try_finally {S A} (body : M S A) (handler : M S unit) : M S A :=
  fun s => match body s with
           | (r, s') => match handler s' with
                        | (Return _, s'') => (r, s'')
                        | (Raise e, s'') => (Raise e, s'')
                        end
           end.

(** A method body runs on the pair of [self] and the world. *)
Definition liftW {Self A} (m : M world A) : M (Self * world) A :=
  fun s => match m (snd s) with (r, w') => (r, (fst s, w')) end.

Declare Scope py_scope.
Delimit Scope py_scope with py.
Notation "x <- c1 ;; c2" := (bind c1 (fun x => c2))
  (at level 100, c1 at next level, right associativity) : py_scope.
Notation "c1 ;; c2" := (bind c1 (fun _ => c2))
  (at level 100, right associativity) : py_scope.
Open Scope py_scope.

(** A call to a collaborator: recorded, then performed on the process. *)
Definition external {A} (ev : event) (op : process -> outcome A * process)
  : M world A :=
  fun w => match op (proc w) with
           | (r, p') => (r, set_proc p' (log ev w))
           end.

(** Python's [int(x)] for a float [x]: truncation toward zero; [ValueError]
    for a NaN and [OverflowError] for an infinity. *)
Definition py_int (x : float) : outcome Z :=
  match Prim2SF x with
  | S754_zero _ => Return 0
  | S754_infinity _ => Raise OverflowError
  | S754_nan => Raise ValueError
  | S754_finite s m e =>
      let v := (if 0 <=? e then Z.pos m * 2 ^ e else Z.pos m / 2 ^ (- e))%Z in
      Return (if s then - v else v)%Z
  end.

(** [if o:], Python's truth test. *)
Definition truthy (o : pyobj) : bool :=
  match o with
  | PyNone => false
  | Obj _ => true
  | Falsy _ => false
  end.

(** ** Builtins and collaborators as the module calls them *)

Section Builtins.
Context (E : Env).

(** [o.write(s)] for an object from outside; [None] has no [write]. *)
Definition pyobj_write (o : pyobj) (s : string) : M world unit :=
  match o with
  | PyNone => raise (AttributeError "write")
  | Obj id | Falsy id => external (EvWrite o s) (obj_write E id s)
  end.

(** [sys.modules[key]] *)
Definition sys_modules_getitem (key : string) : M world pymodule :=
  fun w => match sys_modules (proc w) !! key with
           | Some m => (Return m, w)
           | None => (Raise (KeyError key), w)
           end.

Definition getattr {A} (attr : string) (field : option A) : M world A :=
  match field with
  | Some v => ret v
  | None => raise (AttributeError attr)
  end.

Definition assign_sys_stdout (f : stream) : M world unit :=
  modify (fun w => set_proc (set_sys_stdout f (proc w)) w).

Definition assign_sys_stderr (f : stream) : M world unit :=
  modify (fun w => set_proc (set_sys_stderr f (proc w)) w).

(** [idaapi.register_timer(interval, callback)]: the host records the pair
    and hands back a fresh handle. *)
Definition register_timer (interval : Z) (cb : timer_callback) : M world nat :=
  fun w =>
    let h := next_timer w in
    (Return h,
     {| proc := proc w; app_initialized := app_initialized w;
        timers := timers w ++ [(h, interval, cb)];
        next_timer := S h;
        trace := trace w ++ [EvRegisterTimer interval cb h] |}).

(** [idaapi.unregister_timer(handle)] *)
Definition unregister_timer (h : nat) : M world unit :=
  fun w =>
    (Return tt,
     {| proc := proc w; app_initialized := app_initialized w;
        timers := filter (fun t => t.1.1 ≠ h) (timers w);
        next_timer := next_timer w;
        trace := trace w ++ [EvUnregisterTimer h] |}).

(** [is_using_ipykernel_5()] (line 45) *)
Definition is_using_ipykernel_5 : bool := Kernel_has_process_one E.

(** [int(1000 * app.kernel._poll_interval)] (lines 164, 165) *)
Definition poll_interval_ms {S} : M S Z :=
  fun s => (py_int (1000 * _poll_interval E)%float, s).

(** [app.kernel.do_one_iteration()] *)
Definition app_kernel_do_one_iteration : M world unit :=
  external EvDoOneIteration (kernel_do_one_iteration E).
End Builtins.

(** ** class IDATeeOutStream (lines 50-77) *)

Module IDATeeOutStream.
Section methods.
Context (E : Env) (G : Saved).

(** Lines 52-69.  [ida_ios] is bound first (reading two [sys] slots
    cannot raise); the [finally] clause puts both back. *)
Definition _setup_stream_redirects (name : string) : M world pyobj :=
  fun w0 =>
    let ida_ios := (sys_stdout (proc w0), sys_stderr (proc w0)) in
    try_finally
      (main <- sys_modules_getitem "__main__" ;;
       out <- getattr "_orig_stdout" (_orig_stdout main) ;;
       assign_sys_stdout (Plain out) ;;
       main <- sys_modules_getitem "__main__" ;;
       err <- getattr "_orig_stderr" (_orig_stderr main) ;;
       assign_sys_stderr (Plain err) ;;
       (fun w =>
          external
            (EvOutStreamSetupStreamRedirects name
               (sys_stdout (proc w)) (sys_stderr (proc w)))
            (OutStream_setup_stream_redirects E name) w))
      (assign_sys_stdout ida_ios.1 ;;
       assign_sys_stderr ida_ios.2)
      w0.

(** The saved handle that lines 73-76 select for a stream of this name:
    [_ida_stdout] for "stdout", [_ida_stderr] for "stderr", none for any
    other name. *)
Definition saved_sink (name : string) : pyobj :=
  if String.eqb name "stdout" then _ida_stdout G
  else if String.eqb name "stderr" then _ida_stderr G
  else PyNone.

(** Lines 71-77.  [self] is the stream's name. *)
Definition write (name : string) (string : string) : M world unit :=
  (if String.eqb name "stdout" && truthy (_ida_stdout G)
   then pyobj_write E (_ida_stdout G) string
   else if String.eqb name "stderr" && truthy (_ida_stderr G)
   then pyobj_write E (_ida_stderr G) string
   else ret tt) ;;
  external (EvOutStreamWrite name string) (OutStream_write E name string).
End methods.
End IDATeeOutStream.

(** ** wrap_excepthook, wrap_displayhook (lines 79-97) *)

Section Hooks.
Context (E : Env) (G : Saved).

(** A call of [f] with the positional arguments [args]. *)
Fixpoint call (f : callback) (args : list pyobj) : M world unit :=
  match f with
  | Extern id => external (EvCall id args) (extern_call E id args)
  | ipyida_excepthook ida ipython_excepthook =>
      call ida args ;;
      call ipython_excepthook args
  | ipyida_displayhook ida ipython_displayhook =>
      call ida args ;;
      call ipython_displayhook args
  end.

Definition wrap_excepthook (ipython_excepthook : callback) : callback :=
  ipyida_excepthook (_ida_excepthook G) ipython_excepthook.

Definition wrap_displayhook (ipython_displayhook : callback) : callback :=
  ipyida_displayhook (_ida_displayhook G) ipython_displayhook.
End Hooks.

(** ** print *)

Section Print.
Context (E : Env) (G : Saved).

Definition stream_write (f : stream) (s : string) : M world unit :=
  match f with
  | Plain o => pyobj_write E o s
  | IDATeeOutStream name => IDATeeOutStream.write E G name s
  end.

Definition newline : string := String "010"%char EmptyString.

(** [print(s)]: nothing when [sys.stdout] is [None]; else the text, then
    the line end, are written to [sys.stdout]. *)
Definition print (s : string) : M world unit :=
  fun w =>
    match sys_stdout (proc w) with
    | Plain PyNone => (Return tt, w)
    | f => (stream_write f s ;; stream_write f newline) w
    end.
End Print.

(** ** class IPythonKernel (lines 100-179) *)

Record IPythonKernel := {
  _timer : option nat;
  connection_file : option string;
}.

Module IPythonKernel.
Section methods.
Context (E : Env) (G : Saved).

(** Lines 101-103 *)
Definition __init__ : IPythonKernel :=
  {| _timer := None;
     connection_file := environ E !! "JUPYTER_CONNECTION" |}.

Definition assign_timer (v : option nat) : M (IPythonKernel * world) unit :=
  modify (fun s => ({| _timer := v;
                       connection_file := connection_file s.1 |}, s.2)).

Definition assign_connection_file (v : option string)
  : M (IPythonKernel * world) unit :=
  modify (fun s => ({| _timer := _timer s.1; connection_file := v |}, s.2)).

(** Lines 129-132: the argument of [app.initialize], [None] when it is
    called without one.  [if self.connection_file:] is false for [None]
    and for the empty string. *)
Definition initialize_argv (cf : option string) : option (list string) :=
  match cf with
  | Some f => if String.eqb f "" then None else Some ["-f"; f]
  | None => None
  end.

(** Lines 116-149: the branch taken when [IPKernelApp.initialized()] is
    false.  [IPKernelApp.instance(...)] creates the singleton, after which
    [initialized()] is true. *)
Definition create_app (cf : option string) : M world unit :=
  (if path_exists E (IPYIDARC_PATH E)
   then modify (fun w => set_proc (set_exec_files [IPYIDARC_PATH E] (proc w)) w)
   else ret tt) ;;
  modify (fun w => set_app_initialized true (log EvInstance w)) ;;
  external (EvInitialize (initialize_argv cf))
           (app_initialize E (initialize_argv cf)) ;;
  main <- gets (fun w => _orig_sys_modules_main_mod (proc w)) ;;
  match main with
  | Some m =>
      modify (fun w =>
        set_proc (set_sys_modules
                    (<[_orig_sys_modules_main_name (proc w) := m]>
                       (sys_modules (proc w)))
                    (proc w)) w)
  | None => ret tt
  end ;;
  modify (fun w =>
    set_proc (set_sys_excepthook
                (wrap_excepthook G (sys_excepthook (proc w))) (proc w)) w) ;;
  modify (fun w =>
    set_proc (set_sys_displayhook
                (wrap_displayhook G (sys_displayhook (proc w))) (proc w)) w).

Definition banner : string :=
  "[ipyida] IPython Kernel initialized! You can connect using: "
  +:+ newline +:+ "        ".



(** Lines 105-165 *)
Definition start : M (IPythonKernel * world) unit :=
  timer <- gets (fun s => _timer s.1) ;;
  match timer with
  | Some _ => raise (Exception "IPython kernel is already running.")
  | None =>
      initialized <- gets (fun s => app_initialized s.2) ;;
      (if initialized : bool then ret tt
       else cf <- gets (fun s => connection_file s.1) ;;
            liftW (create_app cf)) ;;
      liftW (external EvSetCompleterFrame (shell_set_completer_frame E)) ;;
      liftW (external EvKernelStart (kernel_start E)) ;;
      cf <- gets (fun s => app_connection_file (proc s.2)) ;;
      assign_connection_file (Some cf) ;;
      liftW (print E G (banner +:+ cf)) ;;
      if negb (is_using_ipykernel_5 E) then
        liftW (app_kernel_do_one_iteration E) ;;
        ms <- poll_interval_ms E ;;
        h <- liftW (register_timer ms ipython_kernel_iteration_closure) ;;
        assign_timer (Some h)
      else ret tt
  end.

(** Lines 169-175 *)
Definition stop : M (IPythonKernel * world) unit :=
  timer <- gets (fun s => _timer s.1) ;;
  match timer with
  | Some h => liftW (unregister_timer h)
  | None => ret tt
  end ;;
  assign_timer None ;;
  assign_connection_file None ;;
  liftW (assign_sys_stdout (Plain (_ida_stdout G))) ;;
  liftW (assign_sys_stderr (Plain (_ida_stderr G))).

(** Lines 177-179 *)
Definition started (self : IPythonKernel) : bool :=
  match _timer self with
  | Some _ => true
  | None => false
  end.
End methods.
End IPythonKernel.

(** ** do_one_iteration (lines 181-189) *)

Section ModuleFunctions.
Context (E : Env).

Definition do_one_iteration : M world unit :=
  if is_using_ipykernel_5 E then
    raise (Exception "Should not call this when ipykernel >= 5")
  else
    initialized <- gets app_initialized ;;
    if initialized : bool then app_kernel_do_one_iteration E
    else raise (Exception "Kernel is not initialized").
End ModuleFunctions.

(** ** Reading a trace *)

(** The argument lists of the [app.initialize] calls. *)
Definition initialize_calls (t : list event) : list (option (list string)) :=
  omap (fun ev => match ev with EvInitialize argv => Some argv | _ => None end) t.

(** The run-loop part of a trace: processing iterations and the host
    scheduler's calls. *)
Definition is_runloop_event (ev : event) : bool :=
  match ev with
  | EvDoOneIteration | EvRegisterTimer _ _ _ | EvUnregisterTimer _ => true
  | _ => false
  end.

Definition runloop_events (t : list event) : list event :=
  List.filter is_runloop_event t.

(** ** A well-behaved collaborator, for running the module *)

(** An engine that does what lines 20-22, 36-43 and 135-137 say of it:
    [initialize] installs the tee streams and its own hooks, takes over
    [__main__] and fixes the connection file (the one after [-f], else a fresh
    one); every call returns.  The poll interval is ipykernel's 0.05 s. *)
Definition fake_initialize (argv : option (list string)) (p : process)
  : outcome unit * process :=
  (Return tt,
   {| sys_stdout := IDATeeOutStream "stdout";
      sys_stderr := IDATeeOutStream "stderr";
      sys_excepthook := Extern 10;
      sys_displayhook := Extern 11;
      sys_modules :=
        <["__main__" := {| module_id := 1; _orig_stdout := None;
                           _orig_stderr := None |}]> (sys_modules p);
      exec_files := exec_files p;
      app_connection_file :=
        match argv with
        | Some [_; f] => f
        | _ => "kernel-fresh.json"
        end;
      _orig_sys_modules_main_mod := sys_modules p !! "__main__";
      _orig_sys_modules_main_name := "__main__" |}).

Definition fake_env (ipykernel_5 : bool) (env : gmap string string) : Env :=
  {| environ := env;
     IPYIDARC_PATH := "ipyidarc.py";
     path_exists := fun _ => false;
     obj_write := fun _ _ p => (Return tt, p);
     extern_call := fun _ _ p => (Return tt, p);
     Kernel_has_process_one := ipykernel_5;
     _poll_interval := 0x1.999999999999ap-5%float;
     app_initialize := fake_initialize;
     shell_set_completer_frame := fun p => (Return tt, p);
     kernel_start := fun p => (Return tt, p);
     kernel_do_one_iteration := fun p => (Return tt, p);
     OutStream_write := fun _ _ p => (Return tt, p);
     OutStream_setup_stream_redirects := fun _ p => (Return PyNone, p) |}.

(** The same host and engine, except that the object [bad] (a closed console,
    a failing hook) raises when written to or called. *)
Definition failing_env (bad : nat) : Env :=
  {| environ := ∅;
     IPYIDARC_PATH := "ipyidarc.py";
     path_exists := fun _ => false;
     obj_write := fun id _ p =>
       (if Nat.eqb id bad then Raise (Foreign bad) else Return tt, p);
     extern_call := fun id _ p =>
       (if Nat.eqb id bad then Raise (Foreign bad) else Return tt, p);
     Kernel_has_process_one := false;
     _poll_interval := 0x1.999999999999ap-5%float;
     app_initialize := fake_initialize;
     shell_set_completer_frame := fun p => (Return tt, p);
     kernel_start := fun p => (Return tt, p);
     kernel_do_one_iteration := fun p => (Return tt, p);
     OutStream_write := fun _ _ p => (Return tt, p);
     OutStream_setup_stream_redirects := fun _ p => (Raise (Foreign bad), p) |}.

(** IDA before the module is imported: the console objects 1 and 2 are
    [sys.stdout] and [sys.stderr], the hooks are Python's own, [__main__]
    keeps the interpreter's original streams 3 and 4. *)
Definition ida_main : pymodule :=
  {| module_id := 0; _orig_stdout := Some (Obj 3); _orig_stderr := Some (Obj 4) |}.

Definition ida_process : process :=
  {| sys_stdout := Plain (Obj 1); sys_stderr := Plain (Obj 2);
     sys_excepthook := Extern 5; sys_displayhook := Extern 6;
     sys_modules := {["__main__" := ida_main]};
     exec_files := [];
     app_connection_file := "";
     _orig_sys_modules_main_mod := None;
     _orig_sys_modules_main_name := "__main__" |}.

Definition ida_world : world :=
  {| proc := ida_process; app_initialized := false; timers := [];
     next_timer := 0; trace := [] |}.

Definition ida_saved : Saved :=
  module_load (Obj 1) (Obj 2) (Extern 5) (Extern 6).

(** ** Well-behaved collaborators, as hypotheses *)

Definition returns (op : process -> outcome unit * process) : Prop :=
  forall p, (op p).1 = Return tt.

(** Every call the module makes to the host's console objects and to the
    engine returns. *)
Record cooperative (E : Env) : Prop := {
  coop_obj_write : forall id s, returns (obj_write E id s);
  coop_initialize : forall argv, returns (app_initialize E argv);
  coop_set_completer_frame : returns (shell_set_completer_frame E);
  coop_kernel_start : returns (kernel_start E);
  coop_do_one_iteration : returns (kernel_do_one_iteration E);
  coop_OutStream_write : forall name s, returns (OutStream_write E name s);
}.

(** After [stop]: the active streams are the saved handles themselves, and the
    instance holds neither a scheduling handle nor a connection file. *)
Definition stopped (G : Saved) (s : IPythonKernel * world) : Prop :=
  sys_stdout (proc s.2) = Plain (_ida_stdout G) /\
  sys_stderr (proc s.2) = Plain (_ida_stderr G) /\
  _timer s.1 = None /\
  connection_file s.1 = None.

(** One of the two closures, over two callables from outside. *)
Definition chains (f : callback) (p n : nat) : Prop :=
  f = ipyida_excepthook (Extern p) (Extern n)
  \/ f = ipyida_displayhook (Extern p) (Extern n).

(** [w'] differs from [w] by calls that are not run-loop events: same
    iterations and scheduler calls so far, same registered timers. *)
Definition quiet (w w' : world) : Prop :=
  runloop_events (trace w') = runloop_events (trace w)
  /\ timers w' = timers w
  /\ next_timer w' = next_timer w.

(** [m] only adds to the trace, and adds no call of [app.initialize]. *)
Definition no_initialize {S A} (tr : S -> list event) (m : M S A) : Prop :=
  forall s, exists evs,
    tr (m s).2 = tr s ++ evs /\ initialize_calls evs = [].

(** ** Import of the module (lines 20-43) *)

(** A file object as line 30 looks at it: what [fileno()] gives. *)
Record pyfile := {
  file_id : nat;
  fileno : outcome Z;
}.

(** Lines 30-34: [sys.__stdout__] after the test, given what
    [open(os.devnull, "w")] would give.  [or] does not call [fileno()] on
    [None]; [open] is only called when the test holds. *)
Definition fix___stdout__ (open_devnull : outcome pyfile)
    (__stdout__ : option pyfile) : outcome (option pyfile) :=
  match __stdout__ with
  | None =>
      match open_devnull with
      | Return f => Return (Some f)
      | Raise e => Raise e
      end
  | Some f =>
      match fileno f with
      | Return n =>
          if (n <? 0)%Z then
            match open_devnull with
            | Return f' => Return (Some f')
            | Raise e => Raise e
            end
          else Return (Some f)
      | Raise e => Raise e
      end
  end.

(** The import, top to bottom: the two streams are saved (lines 23-24),
    [sys.__stdout__] is looked at (lines 30-34), the two hooks are saved
    (lines 39, 43).  The result is the module's globals and the new
    [sys.__stdout__]. *)
Definition import_module (stdout stderr : pyobj)
    (excepthook displayhook : callback)
    (open_devnull : outcome pyfile) (__stdout__ : option pyfile)
  : outcome (Saved * option pyfile) :=
  match fix___stdout__ open_devnull __stdout__ with
  | Return std => Return (module_load stdout stderr excepthook displayhook, std)
  | Raise e => Raise e
  end.

(** ** The parts of [start] after the guard *)

Section StartParts.
Context (E : Env) (G : Saved).

(** Lines 159-165 *)
Definition start_run_loop : M (IPythonKernel * world) unit :=
  if negb (is_using_ipykernel_5 E) then
    liftW (app_kernel_do_one_iteration E) ;;
    ms <- poll_interval_ms E ;;
    h <- liftW (register_timer ms ipython_kernel_iteration_closure) ;;
    IPythonKernel.assign_timer (Some h)
  else ret tt.

(** Lines 151-157, followed by [rest]. *)
Definition start_engine (rest : M (IPythonKernel * world) unit)
  : M (IPythonKernel * world) unit :=
  liftW (external EvSetCompleterFrame (shell_set_completer_frame E)) ;;
  liftW (external EvKernelStart (kernel_start E)) ;;
  cf <- gets (fun s => app_connection_file (proc s.2)) ;;
  IPythonKernel.assign_connection_file (Some cf) ;;
  liftW (print E G (IPythonKernel.banner +:+ cf)) ;;
  rest.
End StartParts.

(** ** Views of the state *)

(** [m] leaves [f] of the state as it was, whether it returns or raises. *)
Definition preserves {S A X} (f : S -> X) (m : M S A) : Prop :=
  forall s, f (m s).2 = f s.

(** What the host scheduler and the engine singleton look like: the run-loop
    history, the registered timers, the next handle, and whether the
    singleton exists. *)
Definition world_view (w : world)
  : list event * list (nat * Z * timer_callback) * nat * bool :=
  (runloop_events (trace w), timers w, next_timer w, app_initialized w).

(** The two hook slots of [sys]. *)
Definition sys_hooks (p : process) : callback * callback :=
  (sys_excepthook p, sys_displayhook p).

Definition hooks (w : world) : callback * callback := sys_hooks (proc w).

(** The collaborator's operation leaves the part [g] of the process alone,
    whether it returns or raises. *)
Definition keeps {A X} (g : process -> X)
    (op : process -> outcome A * process) : Prop :=
  forall p, g (op p).2 = g p.

(** Every call the module makes, except [app.initialize], leaves [g]
    alone. *)
Record engine_keeps {X} (g : process -> X) (E : Env) : Prop := {
  keeps_obj_write : forall id s, keeps g (obj_write E id s);
  keeps_set_completer_frame : keeps g (shell_set_completer_frame E);
  keeps_kernel_start : keeps g (kernel_start E);
  keeps_do_one_iteration : keeps g (kernel_do_one_iteration E);
  keeps_OutStream_write : forall name s, keeps g (OutStream_write E name s);
}.

(** An instance that holds a scheduling handle holds a connection file. *)
Definition handle_has_connection (k : IPythonKernel) : Prop :=
  _timer k <> None -> connection_file k <> None.

(** The handle an instance holds is one of the host's registered timers. *)
Definition handle_registered (s : IPythonKernel * world) : Prop :=
  forall h, _timer s.1 = Some h ->
            exists ms cb, (h, ms, cb) ∈ timers s.2.

(** The host has handed out only handles below [next_timer]. *)
Definition fresh_handles (w : world) : Prop :=
  Forall (fun t => (t.1.1 < next_timer w)%nat) (timers w).

(** * Properties *)

Ltac run :=
  repeat progress
    (unfold bind, ret, raise, gets, modify, liftW, try_finally, external,
       pyobj_write; simpl).

(** ** The tee stream *)

Section TeeFacts.
Context (E : Env) (G : Saved).

(** [write] first forwards to the saved handle of its role when that handle
    is truthy, and then does the engine's write. *)
Lemma write_unfold name s :
  IDATeeOutStream.write E G name s =
  ((if truthy (IDATeeOutStream.saved_sink G name)
    then pyobj_write E (IDATeeOutStream.saved_sink G name) s
    else ret tt) ;;
   external (EvOutStreamWrite name s) (OutStream_write E name s)).
Proof.
  unfold IDATeeOutStream.write, IDATeeOutStream.saved_sink.
  destruct (String.eqb name "stdout") eqn:Hout; simpl.
  - destruct (truthy (_ida_stdout G)) eqn:Ht; [reflexivity|].
    apply String.eqb_eq in Hout. subst name. reflexivity.
  - destruct (String.eqb name "stderr"); reflexivity.
Qed.
End TeeFacts.




(** C5, as the code has it: with no saved host sink for the stream's role
    ([None]), [write] skips the forwarding and does the engine's write; when
    the [write] of the saved host sink raises, that exception leaves
    [IDATeeOutStream.write] and the engine's write is not done. *)
Theorem write_host_sink_absent_or_raising
    (E : Env) (G : Saved) (name s : string) (w : world) :
  (IDATeeOutStream.saved_sink G name = PyNone ->
   trace (IDATeeOutStream.write E G name s w).2
     = trace w ++ [EvOutStreamWrite name s]
   /\ (IDATeeOutStream.write E G name s w).1
     = (OutStream_write E name s (proc w)).1)
  /\ (forall id e,
        IDATeeOutStream.saved_sink G name = Obj id ->
        (obj_write E id s (proc w)).1 = Raise e ->
        (IDATeeOutStream.write E G name s w).1 = Raise e
        /\ trace (IDATeeOutStream.write E G name s w).2
           = trace w ++ [EvWrite (Obj id) s]).
Proof.
  split.
  - intros Hsink. rewrite write_unfold, Hsink. run.
    destruct (OutStream_write E name s (proc w)) as [r p]. auto.
  - intros id e Hsink Hraise. rewrite write_unfold, Hsink. run.
    destruct (obj_write E id s (proc w)) as [r p1]. simpl in Hraise. subst r.
    auto.
Qed.

Lemma write_host_sink_absent_or_raising_witness :
  trace (IDATeeOutStream.write (fake_env false ∅)
           (module_load PyNone (Obj 2) (Extern 5) (Extern 6))
           "stdout" "hi" ida_world).2
    = [EvOutStreamWrite "stdout" "hi"].
Proof.
  apply (write_host_sink_absent_or_raising
           (fake_env false ∅)
           (module_load PyNone (Obj 2) (Extern 5) (Extern 6))
           "stdout" "hi" ida_world).
  reflexivity.
Defined.

(** The console object 1, IDA's saved standard output, is closed: its [write]
    raises.  The exception leaves [IDATeeOutStream.write] and the engine's
    write never happens. *)
Lemma write_host_sink_raising_counterexample :
  (obj_write (failing_env 1) 1 "hi" (proc ida_world)).1 = Raise (Foreign 1)
  /\ (IDATeeOutStream.write (failing_env 1) ida_saved "stdout" "hi"
        ida_world).1 = Raise (Foreign 1)
  /\ trace (IDATeeOutStream.write (failing_env 1) ida_saved "stdout" "hi"
              ida_world).2 = [EvWrite (Obj 1) "hi"].
Proof. repeat split. Qed.

(** C9: [_setup_stream_redirects] leaves [sys.stdout] and [sys.stderr] as it
    found them, whether the wrapped setup step returns or raises; and when
    [__main__] keeps the original handles, the wrapped step is the only call,
    made while [sys.stdout] and [sys.stderr] are those original handles. *)
Theorem setup_stream_redirects_swaps_and_restores
    (E : Env) (name : string) (w : world) :
  sys_stdout (proc (IDATeeOutStream._setup_stream_redirects E name w).2)
    = sys_stdout (proc w)
  /\ sys_stderr (proc (IDATeeOutStream._setup_stream_redirects E name w).2)
    = sys_stderr (proc w)
  /\ (forall main out err,
        sys_modules (proc w) !! "__main__" = Some main ->
        _orig_stdout main = Some out ->
        _orig_stderr main = Some err ->
        trace (IDATeeOutStream._setup_stream_redirects E name w).2
          = trace w
            ++ [EvOutStreamSetupStreamRedirects name (Plain out) (Plain err)]
        /\ (IDATeeOutStream._setup_stream_redirects E name w).1
          = (OutStream_setup_stream_redirects E name
               (set_sys_stderr (Plain err)
                  (set_sys_stdout (Plain out) (proc w)))).1).
Proof.
  unfold IDATeeOutStream._setup_stream_redirects, sys_modules_getitem,
    assign_sys_stdout, assign_sys_stderr, getattr.
  run.
  destruct (sys_modules (proc w) !! "__main__") as [main|] eqn:Hmain; simpl.
  - destruct (_orig_stdout main) as [out|] eqn:Hout; simpl.
    + rewrite Hmain. simpl.
      destruct (_orig_stderr main) as [err|] eqn:Herr; simpl.
      * destruct (OutStream_setup_stream_redirects E name _) as [r p] eqn:Hop.
        simpl. split; [reflexivity | split; [reflexivity |]].
        intros main' out' err' Hm Ho He.
        inversion Hm; subst main'. rewrite Hout in Ho. rewrite Herr in He.
        inversion Ho; inversion He; subst. rewrite Hop. auto.
      * split; [reflexivity | split; [reflexivity |]].
        intros main' out' err' Hm Ho He.
        inversion Hm; subst main'. congruence.
    + split; [reflexivity | split; [reflexivity |]].
      intros main' out' err' Hm Ho He.
      inversion Hm; subst main'. congruence.
  - split; [reflexivity | split; [reflexivity |]].
    intros main' out' err' Hm. discriminate.
Qed.

Lemma setup_stream_redirects_swaps_and_restores_witness :
  trace (IDATeeOutStream._setup_stream_redirects (failing_env 7) "stdout"
           ida_world).2
    = [EvOutStreamSetupStreamRedirects "stdout" (Plain (Obj 3)) (Plain (Obj 4))]
  /\ (IDATeeOutStream._setup_stream_redirects (failing_env 7) "stdout"
        ida_world).1 = Raise (Foreign 7).
Proof.
  apply (setup_stream_redirects_swaps_and_restores
           (failing_env 7) "stdout" ida_world) with (main := ida_main);
    reflexivity.
Defined.

(** ** The hook chain *)

Section HookFacts.
Context (E : Env).

(** A chain of two callables from outside: the first is called, and the
    second only once the first has returned. *)
Lemma call_chain_trace f (p n : nat) (args : list pyobj) (w : world) :
  chains f p n ->
  trace (call E f args w).2
  = match (extern_call E p args (proc w)).1 with
    | Return _ => trace w ++ [EvCall p args; EvCall n args]
    | Raise _ => trace w ++ [EvCall p args]
    end.
Proof.
  intros [-> | ->]; cbn [call]; run;
    (destruct (extern_call E p args (proc w)) as [[[]|e] p1]; simpl;
     [destruct (extern_call E n args p1) as [r p2]; simpl;
      now rewrite <- app_assoc
     | reflexivity]).
Qed.

Lemma call_chain_raise f (p n : nat) (args : list pyobj) (w : world) e :
  chains f p n ->
  (extern_call E p args (proc w)).1 = Raise e ->
  (call E f args w).1 = Raise e.
Proof.
  intros [-> | ->]; cbn [call]; run;
    (destruct (extern_call E p args (proc w)) as [r p1]; simpl;
     now intros ->).
Qed.
End HookFacts.

(** C7: a callback made by [wrap_excepthook] or [wrap_displayhook], called
    with any positional arguments, calls the previously installed callback
    (the saved [_ida_excepthook], [_ida_displayhook]) first and the new one
    second, each with the arguments it was given: the new callback [new] runs
    on the same [args], in the state the previous one left; when it is a
    callable [n] from outside, the calls are those of the previous hook and of
    [n], in this order.  The previous callback is taken to return; C6 is
    about the one that raises. *)
Theorem wrapped_hook_calls_previous_then_new
    (E : Env) (G : Saved) (p q n : nat) (new : callback)
    (args : list pyobj) (w : world) :
  _ida_excepthook G = Extern p ->
  _ida_displayhook G = Extern q ->
  (extern_call E p args (proc w)).1 = Return tt ->
  (extern_call E q args (proc w)).1 = Return tt ->
  call E (wrap_excepthook G new) args w
    = call E new args
        (set_proc (extern_call E p args (proc w)).2 (log (EvCall p args) w))
  /\ call E (wrap_displayhook G new) args w
    = call E new args
        (set_proc (extern_call E q args (proc w)).2 (log (EvCall q args) w))
  /\ trace (call E (wrap_excepthook G (Extern n)) args w).2
    = trace w ++ [EvCall p args; EvCall n args]
  /\ trace (call E (wrap_displayhook G (Extern n)) args w).2
    = trace w ++ [EvCall q args; EvCall n args].
Proof.
  intros Hp Hq Hpr Hqr. unfold wrap_excepthook, wrap_displayhook.
  rewrite Hp, Hq.
  rewrite (call_chain_trace E _ p n) by (left; reflexivity).
  rewrite (call_chain_trace E _ q n) by (right; reflexivity).
  rewrite Hpr, Hqr. cbn [call]. unfold bind, external.
  destruct (extern_call E p args (proc w)) as [rp p1].
  destruct (extern_call E q args (proc w)) as [rq p2].
  simpl in Hpr, Hqr. subst rp rq. auto.
Qed.

Lemma wrapped_hook_calls_previous_then_new_witness :
  trace (call (fake_env false ∅) (wrap_excepthook ida_saved (Extern 10))
           [Obj 20; Obj 21; Obj 22] ida_world).2
    = [EvCall 5 [Obj 20; Obj 21; Obj 22]; EvCall 10 [Obj 20; Obj 21; Obj 22]]
  /\ trace (call (fake_env false ∅) (wrap_displayhook ida_saved (Extern 11))
              [Obj 20] ida_world).2
    = [EvCall 6 [Obj 20]; EvCall 11 [Obj 20]].
Proof.
  split.
  - apply (wrapped_hook_calls_previous_then_new
             (fake_env false ∅) ida_saved 5 6 10 (Extern 10)
             [Obj 20; Obj 21; Obj 22] ida_world); reflexivity.
  - apply (wrapped_hook_calls_previous_then_new
             (fake_env false ∅) ida_saved 5 6 11 (Extern 11) [Obj 20]
             ida_world); reflexivity.
Defined.

(** C6, as the code has it: for all [x] and [y], a wrapped callback called
    with [(x, y)] calls the previously installed callback with [(x, y)]; when
    that one returns, the new callback is called with [(x, y)] too; when it
    raises, the exception leaves the wrapped callback and the new callback is
    not called. *)
Theorem wrapped_hook_both_unless_previous_raises
    (E : Env) (G : Saved) (p q n : nat) (x y : pyobj) (w : world) :
  _ida_excepthook G = Extern p ->
  _ida_displayhook G = Extern q ->
  match (extern_call E p [x; y] (proc w)).1 with
  | Return _ =>
      trace (call E (wrap_excepthook G (Extern n)) [x; y] w).2
      = trace w ++ [EvCall p [x; y]; EvCall n [x; y]]
  | Raise e =>
      (call E (wrap_excepthook G (Extern n)) [x; y] w).1 = Raise e
      /\ trace (call E (wrap_excepthook G (Extern n)) [x; y] w).2
         = trace w ++ [EvCall p [x; y]]
  end
  /\ match (extern_call E q [x; y] (proc w)).1 with
     | Return _ =>
         trace (call E (wrap_displayhook G (Extern n)) [x; y] w).2
         = trace w ++ [EvCall q [x; y]; EvCall n [x; y]]
     | Raise e =>
         (call E (wrap_displayhook G (Extern n)) [x; y] w).1 = Raise e
         /\ trace (call E (wrap_displayhook G (Extern n)) [x; y] w).2
            = trace w ++ [EvCall q [x; y]]
     end.
Proof.
  intros Hp Hq. unfold wrap_excepthook, wrap_displayhook.
  rewrite Hp, Hq.
  rewrite (call_chain_trace E _ p n) by (left; reflexivity).
  rewrite (call_chain_trace E _ q n) by (right; reflexivity).
  split.
  - destruct (extern_call E p [x; y] (proc w)).1 eqn:Hr; [reflexivity|].
    split; [|reflexivity].
    apply (call_chain_raise E _ p n); [left; reflexivity | exact Hr].
  - destruct (extern_call E q [x; y] (proc w)).1 eqn:Hr; [reflexivity|].
    split; [|reflexivity].
    apply (call_chain_raise E _ q n); [right; reflexivity | exact Hr].
Qed.

Lemma wrapped_hook_both_unless_previous_raises_witness :
  trace (call (fake_env false ∅) (wrap_excepthook ida_saved (Extern 10))
           [Obj 20; Obj 21] ida_world).2
    = [EvCall 5 [Obj 20; Obj 21]; EvCall 10 [Obj 20; Obj 21]].
Proof.
  apply (wrapped_hook_both_unless_previous_raises
           (fake_env false ∅) ida_saved 5 6 10 (Obj 20) (Obj 21) ida_world);
    reflexivity.
Defined.

(** The hooks 5 and 6 that IDA had installed raise.  The wrapped hooks pass the
    exception on, and the engine's hooks 10 and 11 are never called. *)
Lemma wrapped_hook_previous_raises_counterexample :
  (call (failing_env 5) (wrap_excepthook ida_saved (Extern 10))
     [Obj 20; Obj 21] ida_world).1 = Raise (Foreign 5)
  /\ trace (call (failing_env 5) (wrap_excepthook ida_saved (Extern 10))
              [Obj 20; Obj 21] ida_world).2 = [EvCall 5 [Obj 20; Obj 21]]
  /\ (call (failing_env 6) (wrap_displayhook ida_saved (Extern 11))
        [Obj 20; Obj 21] ida_world).1 = Raise (Foreign 6)
  /\ trace (call (failing_env 6) (wrap_displayhook ida_saved (Extern 11))
              [Obj 20; Obj 21] ida_world).2 = [EvCall 6 [Obj 20; Obj 21]].
Proof. repeat split. Qed.

(** ** The module's do_one_iteration *)

(** C8, as the code has it: [do_one_iteration] raises whenever the engine
    manages its own thread; when it does not and the engine singleton is not
    initialized, it raises "Kernel is not initialized"; when it does not and
    the singleton is initialized, it makes exactly one processing iteration of
    the engine, and it makes one in no other case. *)
Theorem do_one_iteration_cases (E : Env) (w : world) :
  (is_using_ipykernel_5 E = true ->
   do_one_iteration E w
   = (Raise (Exception "Should not call this when ipykernel >= 5"), w))
  /\ (is_using_ipykernel_5 E = false -> app_initialized w = false ->
      do_one_iteration E w
      = (Raise (Exception "Kernel is not initialized"), w))
  /\ (is_using_ipykernel_5 E = false -> app_initialized w = true ->
      trace (do_one_iteration E w).2 = trace w ++ [EvDoOneIteration]
      /\ (do_one_iteration E w).1 = (kernel_do_one_iteration E (proc w)).1)
  /\ (trace (do_one_iteration E w).2 <> trace w ->
      is_using_ipykernel_5 E = false /\ app_initialized w = true).
Proof.
  unfold do_one_iteration, app_kernel_do_one_iteration.
  destruct (is_using_ipykernel_5 E); run;
    destruct (app_initialized w); simpl;
    try destruct (kernel_do_one_iteration E (proc w)) as [r p1]; simpl;
    repeat split; try congruence; auto.
Qed.

Lemma do_one_iteration_cases_witness :
  do_one_iteration (fake_env false ∅) ida_world
  = (Raise (Exception "Kernel is not initialized"), ida_world).
Proof.
  apply (do_one_iteration_cases (fake_env false ∅) ida_world); reflexivity.
Defined.

(** The engine singleton is not initialized and the engine manages its own
    thread: the error is the one about ipykernel 5, not "Kernel is not
    initialized". *)
Lemma do_one_iteration_uninitialized_counterexample :
  app_initialized ida_world = false
  /\ (do_one_iteration (fake_env true ∅) ida_world).1
     = Raise (Exception "Should not call this when ipykernel >= 5")
  /\ (do_one_iteration (fake_env true ∅) ida_world).1
     <> Raise (Exception "Kernel is not initialized").
Proof. repeat split. discriminate. Qed.

(** ** The lifecycle controller *)

Section StopFacts.
Context (G : Saved).

(** What one [stop] does, from any state. *)
Lemma stop_spec (s : IPythonKernel * world) :
  (IPythonKernel.stop G s).1 = Return tt
  /\ stopped G (IPythonKernel.stop G s).2
  /\ trace (IPythonKernel.stop G s).2.2
     = trace s.2 ++ match _timer s.1 with
                    | Some h => [EvUnregisterTimer h]
                    | None => []
                    end
  /\ timers (IPythonKernel.stop G s).2.2
     = match _timer s.1 with
       | Some h => filter (fun t => t.1.1 ≠ h) (timers s.2)
       | None => timers s.2
       end.
Proof.
  destruct s as [[[h|] cf] w]; unfold IPythonKernel.stop, stopped,
    IPythonKernel.assign_timer, IPythonKernel.assign_connection_file,
    assign_sys_stdout, assign_sys_stderr, unregister_timer; run;
    rewrite ?app_nil_r; auto 10.
Qed.

(** A second [stop] changes nothing. *)
Lemma stop_stop (s : IPythonKernel * world) :
  IPythonKernel.stop G (IPythonKernel.stop G s).2
  = (Return tt, (IPythonKernel.stop G s).2).
Proof.
  destruct s as [[[h|] cf] w]; reflexivity.
Qed.
End StopFacts.

(** C2: after [start()] then [stop()], and after [stop()] on an instance that
    was never started, [sys.stdout] and [sys.stderr] are the very objects
    saved at import; [stop] cancels the scheduling handle with the host
    scheduler when there is one, clears the handle and the connection file in
    every case, and a second [stop] changes nothing. *)
Theorem stop_restores_saved_handles
    (E : Env) (out err : pyobj) (eh dh : callback)
    (k : IPythonKernel) (w : world) :
  let G := module_load out err eh dh in
  let started_then_stopped :=
    IPythonKernel.stop G (IPythonKernel.start E G (k, w)).2 in
  let never_started := IPythonKernel.stop G (IPythonKernel.__init__ E, w) in
  (started_then_stopped.1 = Return tt
   /\ sys_stdout (proc started_then_stopped.2.2) = Plain out
   /\ sys_stderr (proc started_then_stopped.2.2) = Plain err)
  /\ (never_started.1 = Return tt
      /\ sys_stdout (proc never_started.2.2) = Plain out
      /\ sys_stderr (proc never_started.2.2) = Plain err
      /\ trace never_started.2.2 = trace w)
  /\ (forall s : IPythonKernel * world,
        (IPythonKernel.stop G s).1 = Return tt
        /\ _timer (IPythonKernel.stop G s).2.1 = None
        /\ connection_file (IPythonKernel.stop G s).2.1 = None
        /\ trace (IPythonKernel.stop G s).2.2
           = trace s.2 ++ match _timer s.1 with
                          | Some h => [EvUnregisterTimer h]
                          | None => []
                          end
        /\ timers (IPythonKernel.stop G s).2.2
           = match _timer s.1 with
             | Some h => filter (fun t => t.1.1 ≠ h) (timers s.2)
             | None => timers s.2
             end
        /\ IPythonKernel.stop G (IPythonKernel.stop G s).2
           = (Return tt, (IPythonKernel.stop G s).2)).
Proof.
  intros G started_then_stopped never_started.
  split; [|split].
  - destruct (stop_spec G (IPythonKernel.start E G (k, w)).2)
      as (Hr & (Hout & Herr & _) & _).
    auto.
  - destruct (stop_spec G (IPythonKernel.__init__ E, w))
      as (Hr & (Hout & Herr & _) & Htr & _).
    simpl in Htr. rewrite app_nil_r in Htr. auto.
  - intros s.
    destruct (stop_spec G s) as (Hr & (_ & _ & Ht & Hcf) & Htr & Htm).
    pose proof (stop_stop G s). auto 10.
Qed.

(** *** Running [start] with collaborators that return *)

Lemma bind_Return {S A B} (m : M S A) (k : A -> M S B) s a s' :
  m s = (Return a, s') -> bind m k s = k a s'.
Proof. unfold bind. now intros ->. Qed.

Lemma quiet_refl w : quiet w w.
Proof. repeat split. Qed.

Lemma quiet_trans w1 w2 w3 : quiet w1 w2 -> quiet w2 w3 -> quiet w1 w3.
Proof.
  intros (Ha & Hb & Hc) (Ha' & Hb' & Hc'). repeat split; congruence.
Qed.

Lemma quiet_set_proc p w : quiet w (set_proc p w).
Proof. repeat split. Qed.

Lemma runloop_events_snoc t ev :
  runloop_events (t ++ [ev])
  = runloop_events t ++ (if is_runloop_event ev then [ev] else []).
Proof. unfold runloop_events. rewrite List.filter_app. reflexivity. Qed.

Lemma quiet_log ev w : is_runloop_event ev = false -> quiet w (log ev w).
Proof.
  intros Hev. repeat split. simpl.
  rewrite runloop_events_snoc, Hev. apply app_nil_r.
Qed.

Section Cooperative.
Context (E : Env) (G : Saved) (HE : cooperative E).

Lemma external_quiet ev op w :
  returns op -> is_runloop_event ev = false ->
  exists w', external ev op w = (Return tt, w') /\ quiet w w'.
Proof.
  intros Hop Hev. unfold external. specialize (Hop (proc w)).
  destruct (op (proc w)) as [r p]. simpl in Hop. subst r.
  eexists; split; [reflexivity|].
  eapply quiet_trans; [apply quiet_log, Hev | apply quiet_set_proc].
Qed.

Lemma pyobj_write_quiet o s w :
  o <> PyNone ->
  exists w', pyobj_write E o s w = (Return tt, w') /\ quiet w w'.
Proof.
  destruct o as [|id|id]; [congruence | |]; intros _;
    (apply external_quiet; [apply coop_obj_write, HE | reflexivity]).
Qed.

Lemma write_quiet name s w :
  exists w', IDATeeOutStream.write E G name s w = (Return tt, w')
             /\ quiet w w'.
Proof.
  rewrite write_unfold.
  assert (Hfwd : exists w1,
             (if truthy (IDATeeOutStream.saved_sink G name)
              then pyobj_write E (IDATeeOutStream.saved_sink G name) s
              else ret tt) w = (Return tt, w1) /\ quiet w w1).
  { destruct (IDATeeOutStream.saved_sink G name) as [|id|id]; simpl.
    - exists w. split; [reflexivity | apply quiet_refl].
    - apply (pyobj_write_quiet (Obj id)). discriminate.
    - exists w. split; [reflexivity | apply quiet_refl]. }
  destruct Hfwd as (w1 & Hrun & Hq).
  rewrite (bind_Return _ _ _ _ _ Hrun).
  destruct (external_quiet (EvOutStreamWrite name s)
              (OutStream_write E name s) w1) as (w2 & Hrun2 & Hq2);
    [apply coop_OutStream_write, HE | reflexivity |].
  exists w2. split; [exact Hrun2 | eapply quiet_trans; eassumption].
Qed.

Lemma stream_write_quiet f s w :
  f <> Plain PyNone ->
  exists w', stream_write E G f s w = (Return tt, w') /\ quiet w w'.
Proof.
  destruct f as [o|name]; intros Hf; simpl.
  - apply pyobj_write_quiet. congruence.
  - apply write_quiet.
Qed.

Lemma print_quiet s w :
  exists w', print E G s w = (Return tt, w') /\ quiet w w'.
Proof.
  assert (Hboth : forall f, f <> Plain PyNone ->
            exists w', (stream_write E G f s ;;
                        stream_write E G f newline) w = (Return tt, w')
                       /\ quiet w w').
  { intros f Hf.
    destruct (stream_write_quiet f s w Hf) as (w1 & H1 & Q1).
    destruct (stream_write_quiet f newline w1 Hf) as (w2 & H2 & Q2).
    exists w2. rewrite (bind_Return _ _ _ _ _ H1).
    split; [exact H2 | eapply quiet_trans; eassumption]. }
  unfold print. destruct (sys_stdout (proc w)) as [[|id|id]|name].
  - exists w. split; [reflexivity | apply quiet_refl].
  - now apply Hboth.
  - now apply Hboth.
  - now apply Hboth.
Qed.

Lemma create_app_quiet cf w :
  exists w', IPythonKernel.create_app E G cf w = (Return tt, w')
             /\ quiet w w'.
Proof.
  unfold IPythonKernel.create_app.
  set (w1 := if path_exists E (IPYIDARC_PATH E)
             then set_proc (set_exec_files [IPYIDARC_PATH E] (proc w)) w
             else w).
  assert (Q1 : quiet w w1).
  { unfold w1. destruct (path_exists E (IPYIDARC_PATH E));
      [apply quiet_set_proc | apply quiet_refl]. }
  assert (H1 : (if path_exists E (IPYIDARC_PATH E)
                then modify (fun w =>
                       set_proc (set_exec_files [IPYIDARC_PATH E] (proc w)) w)
                else ret tt) w = (Return tt, w1)).
  { unfold w1. now destruct (path_exists E (IPYIDARC_PATH E)). }
  rewrite (bind_Return _ _ _ _ _ H1).
  unfold modify at 1. unfold bind at 1.
  destruct (external_quiet (EvInitialize (IPythonKernel.initialize_argv cf))
              (app_initialize E (IPythonKernel.initialize_argv cf))
              (set_app_initialized true (log EvInstance w1)))
    as (w2 & H2 & Q2); [apply coop_initialize, HE | reflexivity |].
  rewrite (bind_Return _ _ _ _ _ H2).
  assert (Q12 : quiet w1 (set_app_initialized true (log EvInstance w1))).
  { repeat split. simpl. rewrite runloop_events_snoc. apply app_nil_r. }
  run.
  destruct (_orig_sys_modules_main_mod (proc w2)); run;
    (eexists; split; [reflexivity|];
     eapply quiet_trans; [exact Q1|];
     eapply quiet_trans; [exact Q12|];
     eapply quiet_trans; [exact Q2|]; repeat split).
Qed.

Lemma liftW_Return {A} (m : M world A) (k : IPythonKernel) w a w' :
  m w = (Return a, w') -> liftW m (k, w) = (Return a, (k, w')).
Proof. unfold liftW. simpl. now intros ->. Qed.

(** One processing iteration: a single run-loop event, the scheduler
    untouched. *)
Lemma do_one_iteration_step w :
  exists w', app_kernel_do_one_iteration E w = (Return tt, w')
             /\ trace w' = trace w ++ [EvDoOneIteration]
             /\ timers w' = timers w
             /\ next_timer w' = next_timer w.
Proof.
  unfold app_kernel_do_one_iteration, external.
  pose proof (coop_do_one_iteration E HE (proc w)) as Hop.
  destruct (kernel_do_one_iteration E (proc w)) as [r p]. simpl in Hop.
  subst r. eexists. repeat split.
Qed.

(** Lines 113-157 of [start]: everything before the run loop is set up
    returns and leaves the run-loop history and the scheduler alone. *)
Lemma start_reaches_run_loop (k : IPythonKernel) (w : world)
    (rest : M (IPythonKernel * world) unit) :
  exists cf w',
    quiet w w'
    /\ ((initialized <- gets (fun s => app_initialized s.2) ;;
         (if initialized : bool then ret tt
          else cf <- gets (fun s => connection_file s.1) ;;
               liftW (IPythonKernel.create_app E G cf)) ;;
         liftW (external EvSetCompleterFrame (shell_set_completer_frame E)) ;;
         liftW (external EvKernelStart (kernel_start E)) ;;
         cf <- gets (fun s => app_connection_file (proc s.2)) ;;
         IPythonKernel.assign_connection_file (Some cf) ;;
         liftW (print E G (IPythonKernel.banner +:+ cf)) ;;
         rest) (k, w)
        = rest ({| _timer := _timer k; connection_file := Some cf |}, w')).
Proof.
  unfold bind at 1, gets at 1. cbn [fst snd].
  assert (H1 : exists w1,
             (if app_initialized w then ret tt
              else cf <- gets (fun s => connection_file s.1) ;;
                   liftW (IPythonKernel.create_app E G cf)) (k, w)
             = (Return tt, (k, w1)) /\ quiet w w1).
  { destruct (app_initialized w).
    - exists w. split; [reflexivity | apply quiet_refl].
    - destruct (create_app_quiet (connection_file k) w) as (w1 & Hr & Hq).
      exists w1. split; [|exact Hq].
      unfold bind at 1, gets at 1. cbn [fst snd].
      now apply liftW_Return. }
  destruct H1 as (w1 & H1 & Q1). rewrite (bind_Return _ _ _ _ _ H1).
  destruct (external_quiet EvSetCompleterFrame
              (shell_set_completer_frame E) w1)
    as (w2 & H2 & Q2); [apply coop_set_completer_frame, HE | reflexivity |].
  rewrite (bind_Return _ _ _ _ _ (liftW_Return _ k _ _ _ H2)).
  destruct (external_quiet EvKernelStart (kernel_start E) w2)
    as (w3 & H3 & Q3); [apply coop_kernel_start, HE | reflexivity |].
  rewrite (bind_Return _ _ _ _ _ (liftW_Return _ k _ _ _ H3)).
  unfold bind at 1, gets at 1. cbn [fst snd].
  unfold bind at 1, IPythonKernel.assign_connection_file, modify.
  cbn [fst snd].
  destruct (print_quiet
              (IPythonKernel.banner +:+ app_connection_file (proc w3)) w3)
    as (w4 & H4 & Q4).
  rewrite (bind_Return _ _ _ _ _ (liftW_Return _ _ _ _ _ H4)).
  exists (app_connection_file (proc w3)), w4. split; [|reflexivity].
  eauto using quiet_trans.
Qed.
End Cooperative.

(** ipykernel's default poll interval of 0.05 s gives a 50 ms timer. *)
Example poll_interval_ms_default :
  py_int (1000 * 0x1.999999999999ap-5)%float = Return 50.
Proof. reflexivity. Qed.

(** [start()] under an engine that wants manual iterations, with
    collaborators that return: one iteration, then one timer, whose handle the
    instance keeps. *)
Lemma start_poll_driven
    (E : Env) (G : Saved) (k : IPythonKernel) (w : world) (ms : Z) :
  cooperative E ->
  is_using_ipykernel_5 E = false ->
  _timer k = None ->
  py_int (1000 * _poll_interval E)%float = Return ms ->
  (IPythonKernel.start E G (k, w)).1 = Return tt
  /\ runloop_events (trace (IPythonKernel.start E G (k, w)).2.2)
     = runloop_events (trace w)
       ++ [EvDoOneIteration;
           EvRegisterTimer ms ipython_kernel_iteration_closure (next_timer w)]
  /\ timers (IPythonKernel.start E G (k, w)).2.2
     = timers w ++ [(next_timer w, ms, ipython_kernel_iteration_closure)]
  /\ _timer (IPythonKernel.start E G (k, w)).2.1 = Some (next_timer w).
Proof.
  intros HE H5 Hk Hms.
  destruct (start_reaches_run_loop E G HE k w
              (if negb (is_using_ipykernel_5 E) then
                 liftW (app_kernel_do_one_iteration E) ;;
                 ms <- poll_interval_ms E ;;
                 h <- liftW (register_timer ms ipython_kernel_iteration_closure) ;;
                 IPythonKernel.assign_timer (Some h)
               else ret tt))
    as (cf & w4 & (Qt & Qtm & Qn) & Hpre).
  destruct (do_one_iteration_step E HE w4) as (w5 & Hiter & Ht & Htm & Hn).
  assert (Hrun :
            IPythonKernel.start E G (k, w)
            = (Return tt,
               ({| _timer := Some (next_timer w5);
                   connection_file := Some cf |},
                (register_timer ms ipython_kernel_iteration_closure w5).2))).
  { unfold IPythonKernel.start.
    unfold bind at 1, gets at 1. cbn [fst snd]. rewrite Hk, Hpre, H5.
    cbn [negb].
    rewrite (bind_Return _ _ _ _ _ (liftW_Return _ _ _ _ _ Hiter)).
    unfold bind at 1, poll_interval_ms. rewrite Hms.
    reflexivity. }
  rewrite Hrun. unfold register_timer. cbn [fst snd trace timers _timer].
  split; [reflexivity | split; [| split]].
  - rewrite Ht, !runloop_events_snoc, Qt, Hn, Qn. cbn [is_runloop_event].
    now rewrite <- app_assoc.
  - now rewrite Htm, Qtm, Hn, Qn.
  - now rewrite Hn, Qn.
Qed.

(** The guard of [start] (lines 106-107). *)
Lemma start_guard (E : Env) (G : Saved) (k : IPythonKernel) (w : world) :
  IPythonKernel.started k = true ->
  IPythonKernel.start E G (k, w)
  = (Raise (Exception "IPython kernel is already running."), (k, w)).
Proof.
  unfold IPythonKernel.started, IPythonKernel.start.
  destruct k as [[h|] cf]; [reflexivity | discriminate].
Qed.


Lemma fake_env_cooperative ipykernel_5 env :
  cooperative (fake_env ipykernel_5 env).
Proof. split; intros; intro; reflexivity. Qed.


(** The engine manages its own thread (ipykernel 5 and later).  [start()]
    returns without a scheduling handle, and a second [start()] in succession
    raises nothing: it goes through the engine's start-up again. *)
Lemma start_twice_native_thread_counterexample :
  let E := fake_env true ∅ in
  let first := IPythonKernel.start E ida_saved (IPythonKernel.__init__ E, ida_world) in
  let second := IPythonKernel.start E ida_saved first.2 in
  first.1 = Return tt
  /\ IPythonKernel.started first.2.1 = false
  /\ second.1 = Return tt
  /\ trace second.2.2
     = trace first.2.2
       ++ [EvSetCompleterFrame; EvKernelStart;
           EvWrite (Obj 1) (IPythonKernel.banner +:+ "kernel-fresh.json");
           EvOutStreamWrite "stdout"
             (IPythonKernel.banner +:+ "kernel-fresh.json");
           EvWrite (Obj 1) newline;
           EvOutStreamWrite "stdout" newline].
Proof. vm_compute. repeat split. Qed.

(** *** The calls of [app.initialize], with any collaborators *)

Lemma initialize_calls_app t1 t2 :
  initialize_calls (t1 ++ t2) = initialize_calls t1 ++ initialize_calls t2.
Proof. apply omap_app. Qed.

Section NoInitialize.
Context {S : Type} (tr : S -> list event).

Lemma no_initialize_ret {A} (a : A) : no_initialize tr (ret a).
Proof. intros s. exists []. now rewrite app_nil_r. Qed.

Lemma no_initialize_raise {A} e : no_initialize tr (@raise S A e).
Proof. intros s. exists []. now rewrite app_nil_r. Qed.

Lemma no_initialize_gets {A} (f : S -> A) : no_initialize tr (gets f).
Proof. intros s. exists []. now rewrite app_nil_r. Qed.

Lemma no_initialize_modify (f : S -> S) :
  (forall s, tr (f s) = tr s) -> no_initialize tr (modify f).
Proof. intros Hf s. exists []. simpl. now rewrite Hf, app_nil_r. Qed.

Lemma no_initialize_bind {A B} (m : M S A) (k : A -> M S B) :
  no_initialize tr m -> (forall a, no_initialize tr (k a)) ->
  no_initialize tr (bind m k).
Proof.
  intros Hm Hk s. unfold bind. destruct (Hm s) as (evs & Ht & Hi).
  destruct (m s) as [[a|e] s1]; simpl in Ht.
  - destruct (Hk a s1) as (evs' & Ht' & Hi').
    exists (evs ++ evs'). rewrite Ht', Ht, <- app_assoc.
    now rewrite initialize_calls_app, Hi, Hi'.
  - now exists evs.
Qed.
End NoInitialize.

Section NoInitializeWorld.
Context (E : Env) (G : Saved).

Lemma no_initialize_external {A} ev (op : process -> outcome A * process) :
  initialize_calls [ev] = [] -> no_initialize trace (external ev op).
Proof.
  intros Hev w. exists [ev]. unfold external.
  now destruct (op (proc w)).
Qed.

Lemma no_initialize_liftW {A} (m : M world A) :
  no_initialize trace m ->
  no_initialize (fun s : IPythonKernel * world => trace s.2) (liftW m).
Proof.
  intros Hm [k w]. destruct (Hm w) as (evs & Ht & Hi). exists evs.
  unfold liftW. simpl. now destruct (m w).
Qed.

Lemma no_initialize_pyobj_write o s : no_initialize trace (pyobj_write E o s).
Proof.
  destruct o; [apply no_initialize_raise | |];
    now apply no_initialize_external.
Qed.

Lemma no_initialize_write name s :
  no_initialize trace (IDATeeOutStream.write E G name s).
Proof.
  rewrite write_unfold. apply no_initialize_bind.
  - destruct (truthy _);
      [apply no_initialize_pyobj_write | apply no_initialize_ret].
  - intros _. now apply no_initialize_external.
Qed.

Lemma no_initialize_print s : no_initialize trace (print E G s).
Proof.
  assert (Hw : forall f t, no_initialize trace (stream_write E G f t)).
  { intros [o|name] t;
      [apply no_initialize_pyobj_write | apply no_initialize_write]. }
  intros w. unfold print. destruct (sys_stdout (proc w)) as [[|id|id]|name].
  - exists []. now rewrite app_nil_r.
  - apply (no_initialize_bind trace); auto.
  - apply (no_initialize_bind trace); auto.
  - apply (no_initialize_bind trace); auto.
Qed.

(** The first creation of the engine singleton calls [app.initialize] once,
    right after [IPKernelApp.instance], and makes no other call. *)
Lemma create_app_trace cf w :
  trace (IPythonKernel.create_app E G cf w).2
  = trace w ++ [EvInstance; EvInitialize (IPythonKernel.initialize_argv cf)].
Proof.
  unfold IPythonKernel.create_app.
  destruct (path_exists E (IPYIDARC_PATH E)); run;
    (destruct (app_initialize E _ _) as [[[]|e] p1]; simpl;
     [destruct (_orig_sys_modules_main_mod p1); simpl |];
     now rewrite <- app_assoc).
Qed.

Lemma no_initialize_register_timer ms cb :
  no_initialize trace (register_timer ms cb).
Proof.
  intros w. exists [EvRegisterTimer ms cb (next_timer w)]. now split.
Qed.

Lemma no_initialize_poll_interval_ms {S} (tr : S -> list event) :
  no_initialize tr (poll_interval_ms E).
Proof.
  intros s. exists []. unfold poll_interval_ms. cbn [snd].
  split; [symmetry; apply app_nil_r | reflexivity].
Qed.

(** Lines 151-165 of [start] never call [app.initialize]. *)
Lemma no_initialize_after_creation :
  no_initialize (fun s : IPythonKernel * world => trace s.2)
    (liftW (external EvSetCompleterFrame (shell_set_completer_frame E)) ;;
     liftW (external EvKernelStart (kernel_start E)) ;;
     cf <- gets (fun s => app_connection_file (proc s.2)) ;;
     IPythonKernel.assign_connection_file (Some cf) ;;
     liftW (print E G (IPythonKernel.banner +:+ cf)) ;;
     if negb (is_using_ipykernel_5 E) then
       liftW (app_kernel_do_one_iteration E) ;;
       ms <- poll_interval_ms E ;;
       h <- liftW (register_timer ms ipython_kernel_iteration_closure) ;;
       IPythonKernel.assign_timer (Some h)
     else ret tt).
Proof.
  repeat first
    [ apply no_initialize_bind; [|intros ?]
    | apply no_initialize_liftW
    | apply no_initialize_external; reflexivity
    | apply no_initialize_print
    | apply no_initialize_register_timer
    | apply no_initialize_poll_interval_ms
    | apply no_initialize_gets
    | apply no_initialize_ret
    | apply no_initialize_modify; intros ?; reflexivity
    | match goal with |- context [if ?b then _ else _] => destruct b end ].
Qed.

Lemma start_initialize_calls (k : IPythonKernel) (w : world) :
  _timer k = None -> app_initialized w = false ->
  initialize_calls (trace (IPythonKernel.start E G (k, w)).2.2)
  = initialize_calls (trace w)
    ++ [IPythonKernel.initialize_argv (connection_file k)].
Proof.
  intros Hk Hw. unfold IPythonKernel.start.
  unfold bind at 1, gets at 1. cbn [fst snd]. rewrite Hk.
  unfold bind at 1, gets at 1. cbn [fst snd]. rewrite Hw.
  unfold bind at 1. unfold bind at 1, gets at 1. cbn [fst snd].
  pose proof (create_app_trace (connection_file k) w) as Hc.
  unfold liftW at 1. cbn [fst snd].
  destruct (IPythonKernel.create_app E G (connection_file k) w)
    as [[[]|e] w1]; simpl in Hc.
  - destruct (no_initialize_after_creation (k, w1)) as (evs & Ht & Hi).
    simpl in Ht. rewrite Ht, Hc, !initialize_calls_app, Hi.
    now rewrite app_nil_r.
  - simpl. now rewrite Hc, initialize_calls_app.
Qed.
End NoInitializeWorld.

(** C10: [stop()] clears the connection file whatever it was.  For an
    instance built with [JUPYTER_CONNECTION] set, a [stop()] before any
    [start()] turns [connection_file] into [None], and the first [start()]
    after it calls [app.initialize()] without the [-f] argument, so the engine
    picks its own connection; without that [stop()], the same [start()] calls
    [app.initialize(['-f', file])]. *)
Theorem stop_before_start_drops_environment_connection
    (E : Env) (G : Saved) (file : string) (w : world) :
  environ E !! "JUPYTER_CONNECTION" = Some file ->
  file <> "" ->
  app_initialized w = false ->
  connection_file (IPythonKernel.__init__ E) = Some file
  /\ connection_file (IPythonKernel.stop G (IPythonKernel.__init__ E, w)).2.1
     = None
  /\ initialize_calls
       (trace (IPythonKernel.start E G
                 (IPythonKernel.stop G (IPythonKernel.__init__ E, w)).2).2.2)
     = initialize_calls (trace w) ++ [None]
  /\ initialize_calls
       (trace (IPythonKernel.start E G (IPythonKernel.__init__ E, w)).2.2)
     = initialize_calls (trace w) ++ [Some ["-f"; file]].
Proof.
  intros Henv Hfile Hw.
  assert (Hne : String.eqb file "" = false) by now apply String.eqb_neq.
  split; [exact Henv | split; [reflexivity | split]].
  - destruct (IPythonKernel.stop G (IPythonKernel.__init__ E, w))
      as [r [k1 w1]] eqn:Hstop.
    pose proof (stop_spec G (IPythonKernel.__init__ E, w)) as Hs.
    rewrite Hstop in Hs. destruct Hs as (_ & (_ & _ & Ht & Hcf) & Htr & _).
    simpl in *. rewrite app_nil_r in Htr.
    assert (Hw1 : app_initialized w1 = false).
    { unfold IPythonKernel.stop in Hstop. simpl in Hstop.
      inversion Hstop. subst. exact Hw. }
    rewrite (start_initialize_calls E G k1 w1 Ht Hw1), Hcf, Htr. reflexivity.
  - rewrite (start_initialize_calls E G (IPythonKernel.__init__ E) w eq_refl Hw).
    replace (connection_file (IPythonKernel.__init__ E)) with (Some file)
      by (symmetry; exact Henv). unfold IPythonKernel.initialize_argv. now rewrite Hne.
Qed.

Lemma stop_before_start_drops_environment_connection_witness :
  let E := fake_env false {["JUPYTER_CONNECTION" := "ida.json"]} in
  initialize_calls
    (trace (IPythonKernel.start E ida_saved
              (IPythonKernel.stop ida_saved
                 (IPythonKernel.__init__ E, ida_world)).2).2.2)
  = [None]
  /\ initialize_calls
       (trace (IPythonKernel.start E ida_saved
                 (IPythonKernel.__init__ E, ida_world)).2.2)
     = [Some ["-f"; "ida.json"]].
Proof.
  intros E.
  assert (Hfile : "ida.json" <> "") by discriminate.
  split;
    apply (stop_before_start_drops_environment_connection
             E ida_saved "ida.json" ida_world eq_refl Hfile eq_refl).
Defined.

(** * Further properties of the module *)

(** ** [_setup_stream_redirects] when [__main__] does not keep the originals *)

(** When [sys.modules] has no [__main__], or [__main__] lacks [_orig_stdout]
    or [_orig_stderr], [_setup_stream_redirects] raises the lookup's error,
    never reaches the wrapped setup step, and leaves the whole state as it
    found it: in the last case [sys.stdout], already replaced, is put
    back. *)
Theorem setup_stream_redirects_missing_originals
    (E : Env) (name : string) (w : world) :
  (sys_modules (proc w) !! "__main__" = None ->
   IDATeeOutStream._setup_stream_redirects E name w
   = (Raise (KeyError "__main__"), w))
  /\ (forall main,
        sys_modules (proc w) !! "__main__" = Some main ->
        _orig_stdout main = None ->
        IDATeeOutStream._setup_stream_redirects E name w
        = (Raise (AttributeError "_orig_stdout"), w))
  /\ (forall main out,
        sys_modules (proc w) !! "__main__" = Some main ->
        _orig_stdout main = Some out ->
        _orig_stderr main = None ->
        IDATeeOutStream._setup_stream_redirects E name w
        = (Raise (AttributeError "_orig_stderr"), w)).
Proof.
  destruct w as [[so se eh dh mods ef cf mm mn] ini tm nt tr].
  unfold IDATeeOutStream._setup_stream_redirects, sys_modules_getitem,
    assign_sys_stdout, assign_sys_stderr, getattr.
  cbn [proc sys_modules sys_stdout sys_stderr].
  split; [|split].
  - intros Hm. run. rewrite Hm. reflexivity.
  - intros main Hm Ho. run. rewrite Hm. simpl. rewrite Ho. reflexivity.
  - intros main out Hm Ho He. run. rewrite Hm. simpl. rewrite Ho. simpl.
    rewrite Hm. simpl. rewrite He. reflexivity.
Qed.

Lemma setup_stream_redirects_missing_originals_witness :
  let w := set_proc (set_sys_modules ∅ ida_process) ida_world in
  IDATeeOutStream._setup_stream_redirects (fake_env false ∅) "stdout" w
  = (Raise (KeyError "__main__"), w).
Proof.
  intros w.
  apply (setup_stream_redirects_missing_originals (fake_env false ∅) "stdout" w).
  reflexivity.
Defined.

(** ** Wrapping a hook more than once *)

Section IteratedWrap.
Context (E : Env) (p : nat) (args : list pyobj).
Hypothesis Hreturns : forall pr, (extern_call E p args pr).1 = Return tt.

(** A chain whose head is the callable [p] calls [p], then its tail. *)
Lemma call_after_previous (f : callback) (w : world) :
  (call E (Extern p) args ;; call E f args) w
  = call E f args
      (set_proc (extern_call E p args (proc w)).2 (log (EvCall p args) w)).
Proof.
  cbn [call]. unfold bind, external. specialize (Hreturns (proc w)).
  destruct (extern_call E p args (proc w)) as [r p1]. simpl in Hreturns.
  now subst r.
Qed.

Lemma iterated_chain_trace (wrap : callback -> callback) (f n : nat) :
  (forall g w, call E (wrap g) args w
               = (call E (Extern p) args ;; call E g args) w) ->
  forall w,
    trace (call E (Nat.iter n wrap (Extern f)) args w).2
    = trace w ++ repeat (EvCall p args) n ++ [EvCall f args].
Proof.
  intros Hwrap. induction n as [|n IH]; intros w.
  - change (Nat.iter 0 wrap (Extern f)) with (Extern f).
    cbn [repeat app call]. unfold external.
    now destruct (extern_call E f args (proc w)).
  - change (Nat.iter (S n) wrap (Extern f))
      with (wrap (Nat.iter n wrap (Extern f))).
    cbn [repeat]. rewrite Hwrap, call_after_previous, IH.
    cbn [set_proc log trace]. now rewrite <- app_assoc.
Qed.
End IteratedWrap.

(** Wrapping [n] times with [wrap_excepthook] (or [wrap_displayhook]) gives a
    callback that calls the saved IDA hook [n] times, then the innermost
    callback once, all with the same arguments: each wrap adds a call of the
    IDA hook, none is lost.  The IDA hook is taken to return. *)
Theorem wrapping_again_repeats_previous
    (E : Env) (G : Saved) (p q f n : nat) (args : list pyobj) (w : world) :
  _ida_excepthook G = Extern p ->
  _ida_displayhook G = Extern q ->
  (forall pr, (extern_call E p args pr).1 = Return tt) ->
  (forall pr, (extern_call E q args pr).1 = Return tt) ->
  trace (call E (Nat.iter n (wrap_excepthook G) (Extern f)) args w).2
  = trace w ++ repeat (EvCall p args) n ++ [EvCall f args]
  /\ trace (call E (Nat.iter n (wrap_displayhook G) (Extern f)) args w).2
     = trace w ++ repeat (EvCall q args) n ++ [EvCall f args].
Proof.
  intros Hp Hq Hpr Hqr. split.
  - apply iterated_chain_trace; [exact Hpr|].
    intros g w'. unfold wrap_excepthook. now rewrite Hp.
  - apply iterated_chain_trace; [exact Hqr|].
    intros g w'. unfold wrap_displayhook. now rewrite Hq.
Qed.

Lemma wrapping_again_repeats_previous_witness :
  trace (call (fake_env false ∅)
           (wrap_excepthook ida_saved
              (wrap_excepthook ida_saved (Extern 10)))
           [Obj 20] ida_world).2
  = [EvCall 5 [Obj 20]; EvCall 5 [Obj 20]; EvCall 10 [Obj 20]].
Proof.
  apply (wrapping_again_repeats_previous
           (fake_env false ∅) ida_saved 5 6 10 2 [Obj 20] ida_world);
    reflexivity.
Defined.

(** ** The import-time check of [sys.__stdout__] *)

(** When the import returns and [open(os.devnull, "w")] gives a file with a
    descriptor that is not negative, [sys.__stdout__] ends as a file object
    whose [fileno()] is not negative: the one it was when that already held,
    the null file otherwise.  The saved handles are what [sys] held, and a
    second import changes nothing more. *)
Theorem import_leaves_usable___stdout__
    (stdout stderr : pyobj) (excepthook displayhook : callback)
    (devnull : pyfile) (n : Z) (std std' : option pyfile) (G : Saved) :
  fileno devnull = Return n ->
  (0 <= n)%Z ->
  import_module stdout stderr excepthook displayhook (Return devnull) std
  = Return (G, std') ->
  (exists f m, std' = Some f /\ fileno f = Return m /\ (0 <= m)%Z
               /\ (f = devnull \/ std = Some f))
  /\ G = module_load stdout stderr excepthook displayhook
  /\ import_module stdout stderr excepthook displayhook (Return devnull) std'
     = Return (G, std').
Proof.
  intros Hdev Hn. unfold import_module, fix___stdout__.
  destruct std as [f|].
  - destruct (fileno f) as [m|e] eqn:Hf; [|discriminate].
    destruct (m <? 0)%Z eqn:Hm; intros [= <- <-].
    + split; [exists devnull, n; auto|]. split; [reflexivity|].
      rewrite Hdev. now replace (n <? 0)%Z with false by lia.
    + split; [exists f, m; repeat split; auto; lia|]. split; [reflexivity|].
      now rewrite Hf, Hm.
  - intros [= <- <-].
    split; [exists devnull, n; auto|]. split; [reflexivity|].
    rewrite Hdev. now replace (n <? 0)%Z with false by lia.
Qed.

Lemma import_leaves_usable___stdout___witness :
  let devnull := {| file_id := 9; fileno := Return 3%Z |} in
  let broken := {| file_id := 1; fileno := Return (-2)%Z |} in
  import_module (Obj 1) (Obj 2) (Extern 5) (Extern 6) (Return devnull)
    (Some devnull)
  = Return (ida_saved, Some devnull).
Proof.
  intros devnull broken.
  apply (import_leaves_usable___stdout__
           (Obj 1) (Obj 2) (Extern 5) (Extern 6) devnull 3 (Some broken)
           (Some devnull) ida_saved);
    [reflexivity | lia | reflexivity].
Defined.

(** ** What [start] keeps, with any collaborators *)

Section Preserves.
Context {S X : Type} (f : S -> X).

Lemma preserves_ret {A} (a : A) : preserves f (ret a).
Proof. intros s. reflexivity. Qed.

Lemma preserves_raise {A} e : preserves f (@raise S A e).
Proof. intros s. reflexivity. Qed.

Lemma preserves_gets {A} (g : S -> A) : preserves f (gets g).
Proof. intros s. reflexivity. Qed.

Lemma preserves_modify (g : S -> S) :
  (forall s, f (g s) = f s) -> preserves f (modify g).
Proof. intros Hg s. apply Hg. Qed.

Lemma preserves_bind {A B} (m : M S A) (k : A -> M S B) :
  preserves f m -> (forall a, preserves f (k a)) -> preserves f (bind m k).
Proof.
  intros Hm Hk s. unfold bind. specialize (Hm s).
  destruct (m s) as [[a|e] s1]; simpl in Hm.
  - now rewrite Hk.
  - exact Hm.
Qed.
End Preserves.

Lemma preserves_liftW {A X} (f : world -> X) (m : M world A) :
  preserves f m ->
  preserves (fun s : IPythonKernel * world => f s.2) (liftW m).
Proof.
  intros Hm [k w]. specialize (Hm w). unfold liftW. simpl.
  now destruct (m w).
Qed.

(** A lifted computation cannot touch [self]. *)
Lemma liftW_self {A} (m : M world A) (k : IPythonKernel) (w : world) :
  (liftW m (k, w)).2.1 = k.
Proof. unfold liftW. simpl. now destruct (m w). Qed.

Lemma bind_liftW {A B} (m : M world A) (c : A -> M (IPythonKernel * world) B)
    (k : IPythonKernel) (w : world) :
  bind (liftW m) c (k, w)
  = match m w with
    | (Return a, w1) => c a (k, w1)
    | (Raise e, w1) => (Raise e, (k, w1))
    end.
Proof. unfold bind, liftW. simpl. now destruct (m w) as [[a|e] w1]. Qed.

Section ViewFacts.
Context (E : Env) (G : Saved).

(** A call that is not a run-loop event shows in no part of the view, whatever
    the collaborator does. *)
Lemma preserves_view_external {A} ev (op : process -> outcome A * process) :
  is_runloop_event ev = false -> preserves world_view (external ev op).
Proof.
  intros Hev w. unfold external, world_view.
  destruct (op (proc w)) as [r p]. simpl.
  now rewrite runloop_events_snoc, Hev, app_nil_r.
Qed.

Lemma preserves_view_pyobj_write o s :
  preserves world_view (pyobj_write E o s).
Proof.
  destruct o;
    [apply preserves_raise | now apply preserves_view_external..].
Qed.

Lemma preserves_view_write name s :
  preserves world_view (IDATeeOutStream.write E G name s).
Proof.
  rewrite write_unfold. apply preserves_bind.
  - destruct (truthy _);
      [apply preserves_view_pyobj_write | apply preserves_ret].
  - intros _. now apply preserves_view_external.
Qed.

Lemma preserves_view_print s : preserves world_view (print E G s).
Proof.
  assert (Hw : forall f t, preserves world_view (stream_write E G f t)).
  { intros [o|name] t;
      [apply preserves_view_pyobj_write | apply preserves_view_write]. }
  intros w. unfold print. destruct (sys_stdout (proc w)) as [[|id|id]|name].
  - reflexivity.
  - apply (preserves_bind world_view); auto.
  - apply (preserves_bind world_view); auto.
  - apply (preserves_bind world_view); auto.
Qed.

(** The first creation of the singleton: afterwards [initialized()] holds,
    even when [app.initialize] raised; the scheduler is not involved. *)
Lemma create_app_view cf w :
  world_view (IPythonKernel.create_app E G cf w).2
  = (runloop_events (trace w), timers w, next_timer w, true).
Proof.
  unfold IPythonKernel.create_app, world_view.
  destruct (path_exists E (IPYIDARC_PATH E)); run;
    (destruct (app_initialize E _ _) as [[[]|e] p1]; simpl;
     [destruct (_orig_sys_modules_main_mod p1); simpl |];
     now rewrite !runloop_events_snoc, !app_nil_r).
Qed.

(** [start] past its guard: the creation of the singleton if there is none,
    then the engine's start-up, then the run loop. *)
Lemma start_unfold (k : IPythonKernel) (w : world) :
  _timer k = None ->
  IPythonKernel.start E G (k, w)
  = ((if app_initialized w then ret tt
      else liftW (IPythonKernel.create_app E G (connection_file k))) ;;
     start_engine E G (start_run_loop E)) (k, w).
Proof.
  intros Hk. unfold IPythonKernel.start.
  unfold bind at 1, gets at 1. cbn [fst snd]. rewrite Hk.
  unfold bind at 1, gets at 1. cbn [fst snd].
  destruct (app_initialized w); reflexivity.
Qed.

(** Lines 151-157 either raise, leaving the view as it was and [self] at most
    with a new connection file, or hand over to the rest with the connection
    file set. *)
Lemma start_engine_cases (rest : M (IPythonKernel * world) unit)
    (k : IPythonKernel) (w : world) :
  (exists e k1 w1,
      start_engine E G rest (k, w) = (Raise e, (k1, w1))
      /\ world_view w1 = world_view w
      /\ _timer k1 = _timer k
      /\ (connection_file k1 = connection_file k
          \/ exists cf, connection_file k1 = Some cf))
  \/ (exists cf w1,
        start_engine E G rest (k, w)
        = rest ({| _timer := _timer k; connection_file := Some cf |}, w1)
        /\ world_view w1 = world_view w).
Proof.
  remember (start_engine E G rest (k, w)) as r eqn:Hr.
  unfold start_engine in Hr. rewrite bind_liftW in Hr.
  pose proof (preserves_view_external EvSetCompleterFrame
                (shell_set_completer_frame E) eq_refl w) as V1.
  destruct (external EvSetCompleterFrame (shell_set_completer_frame E) w)
    as [[[]|e] w1]; simpl in V1;
    [| left; exists e, k, w1; auto].
  rewrite bind_liftW in Hr.
  pose proof (preserves_view_external EvKernelStart (kernel_start E)
                eq_refl w1) as V2.
  destruct (external EvKernelStart (kernel_start E) w1)
    as [[[]|e] w2]; simpl in V2;
    [| left; exists e, k, w2; repeat split; auto; congruence].
  unfold bind at 1, gets at 1 in Hr. cbn [fst snd] in Hr.
  unfold bind at 1, IPythonKernel.assign_connection_file, modify in Hr.
  cbn [fst snd] in Hr.
  rewrite bind_liftW in Hr.
  pose proof (preserves_view_print
                (IPythonKernel.banner +:+ app_connection_file (proc w2)) w2)
    as V3.
  destruct (print E G (IPythonKernel.banner +:+ app_connection_file (proc w2))
              w2) as [[[]|e] w3]; simpl in V3.
  - right. exists (app_connection_file (proc w2)), w3.
    split; [exact Hr | congruence].
  - left. eexists e, _, w3. split; [exact Hr|].
    repeat split; [congruence | right; eauto].
Qed.
End ViewFacts.

Section StartCases.
Context (E : Env) (G : Saved).

(** Lines 159-165, with any collaborators: nothing under an engine with its
    own thread; else one iteration, and the timer only when the iteration and
    the conversion of the poll interval both return. *)
Lemma start_run_loop_cases (k : IPythonKernel) (w : world) :
  connection_file (start_run_loop E (k, w)).2.1 = connection_file k
  /\ app_initialized (start_run_loop E (k, w)).2.2 = app_initialized w
  /\ ((is_using_ipykernel_5 E = true
       /\ start_run_loop E (k, w) = (Return tt, (k, w)))
      \/ (is_using_ipykernel_5 E = false
          /\ (exists e, (start_run_loop E (k, w)).1 = Raise e)
          /\ _timer (start_run_loop E (k, w)).2.1 = _timer k
          /\ timers (start_run_loop E (k, w)).2.2 = timers w
          /\ next_timer (start_run_loop E (k, w)).2.2 = next_timer w
          /\ runloop_events (trace (start_run_loop E (k, w)).2.2)
             = runloop_events (trace w) ++ [EvDoOneIteration])
      \/ (is_using_ipykernel_5 E = false
          /\ (start_run_loop E (k, w)).1 = Return tt
          /\ exists ms,
              py_int (1000 * _poll_interval E)%float = Return ms
              /\ _timer (start_run_loop E (k, w)).2.1 = Some (next_timer w)
              /\ timers (start_run_loop E (k, w)).2.2
                 = timers w
                   ++ [(next_timer w, ms, ipython_kernel_iteration_closure)]
              /\ runloop_events (trace (start_run_loop E (k, w)).2.2)
                 = runloop_events (trace w)
                   ++ [EvDoOneIteration;
                       EvRegisterTimer ms ipython_kernel_iteration_closure
                         (next_timer w)])).
Proof.
  unfold start_run_loop, app_kernel_do_one_iteration, poll_interval_ms,
    register_timer, IPythonKernel.assign_timer.
  destruct (is_using_ipykernel_5 E); cbn [negb].
  - repeat split. left. auto.
  - unfold bind, liftW, external, modify. cbn [fst snd].
    destruct (kernel_do_one_iteration E (proc w)) as [[[]|e] p1];
      cbn [fst snd].
    + destruct (py_int (1000 * _poll_interval E)%float) as [ms|e] eqn:Hms;
        cbn [fst snd proc app_initialized timers next_timer trace set_proc
               log connection_file _timer].
      * repeat split. right. right. repeat split. exists ms.
        repeat split.
        rewrite !runloop_events_snoc. cbn [is_runloop_event].
        now rewrite <- app_assoc.
      * repeat split. right. left. repeat split; eauto.
        now rewrite runloop_events_snoc.
    + cbn [fst snd proc app_initialized timers next_timer trace set_proc
             log connection_file _timer].
      repeat split. right. left. repeat split; eauto.
      now rewrite runloop_events_snoc.
Qed.

(** Every way a [start()] past its guard can end: it raised, and the instance
    holds no handle and the host no new timer; or it returned under an engine
    with its own thread, with no handle and no run-loop call; or it returned
    in manual-iteration mode, after one iteration and one registration whose
    handle the instance holds.  In each case the singleton exists
    afterwards. *)
Lemma start_cases (k : IPythonKernel) (w : world) :
  _timer k = None ->
  app_initialized (IPythonKernel.start E G (k, w)).2.2 = true
  /\ (next_timer w <= next_timer (IPythonKernel.start E G (k, w)).2.2)%nat
  /\ (((exists e, (IPythonKernel.start E G (k, w)).1 = Raise e)
       /\ _timer (IPythonKernel.start E G (k, w)).2.1 = None
       /\ (connection_file (IPythonKernel.start E G (k, w)).2.1
           = connection_file k
           \/ exists cf, connection_file (IPythonKernel.start E G (k, w)).2.1
                         = Some cf)
       /\ timers (IPythonKernel.start E G (k, w)).2.2 = timers w
       /\ (runloop_events (trace (IPythonKernel.start E G (k, w)).2.2)
           = runloop_events (trace w)
           \/ (is_using_ipykernel_5 E = false
               /\ runloop_events (trace (IPythonKernel.start E G (k, w)).2.2)
                  = runloop_events (trace w) ++ [EvDoOneIteration])))
      \/ ((IPythonKernel.start E G (k, w)).1 = Return tt
          /\ is_using_ipykernel_5 E = true
          /\ _timer (IPythonKernel.start E G (k, w)).2.1 = None
          /\ (exists cf, connection_file (IPythonKernel.start E G (k, w)).2.1
                         = Some cf)
          /\ timers (IPythonKernel.start E G (k, w)).2.2 = timers w
          /\ runloop_events (trace (IPythonKernel.start E G (k, w)).2.2)
             = runloop_events (trace w))
      \/ ((IPythonKernel.start E G (k, w)).1 = Return tt
          /\ is_using_ipykernel_5 E = false
          /\ exists ms cf,
              py_int (1000 * _poll_interval E)%float = Return ms
              /\ _timer (IPythonKernel.start E G (k, w)).2.1
                 = Some (next_timer w)
              /\ connection_file (IPythonKernel.start E G (k, w)).2.1 = Some cf
              /\ timers (IPythonKernel.start E G (k, w)).2.2
                 = timers w
                   ++ [(next_timer w, ms, ipython_kernel_iteration_closure)]
              /\ runloop_events (trace (IPythonKernel.start E G (k, w)).2.2)
                 = runloop_events (trace w)
                   ++ [EvDoOneIteration;
                       EvRegisterTimer ms ipython_kernel_iteration_closure
                         (next_timer w)])).
Proof.
  intros Hk.
  remember (IPythonKernel.start E G (k, w)) as r eqn:Hr.
  rewrite (start_unfold E G k w Hk) in Hr.
  remember ((if app_initialized w then ret tt
             else liftW (IPythonKernel.create_app E G (connection_file k)))
              (k, w)) as c eqn:Hc.
  assert (Hfirst : c.2.1 = k
                   /\ (runloop_events (trace c.2.2), timers c.2.2,
                       next_timer c.2.2)
                      = (runloop_events (trace w), timers w, next_timer w)
                   /\ app_initialized c.2.2 = true).
  { subst c. destruct (app_initialized w) eqn:Hi; [now repeat split|].
    split; [apply liftW_self|].
    pose proof (create_app_view E G (connection_file k) w) as Hv.
    unfold liftW, world_view in *. cbn [fst snd].
    destruct (IPythonKernel.create_app E G (connection_file k) w) as [r' w1].
    cbn [fst snd] in *. inversion Hv. now repeat split. }
  unfold bind at 1 in Hr. rewrite <- Hc in Hr. clear Hc.
  destruct c as [[[]|e] [k0 w0]]; cbn [fst snd] in Hfirst;
    destruct Hfirst as (-> & [= Hr0 Ht0 Hn0] & Hi0).
  2: { subst r. cbn [fst snd]. rewrite Hn0.
       repeat split; [assumption | lia |].
       left. repeat split; eauto. }
  destruct (start_engine_cases E G (start_run_loop E) k w0)
    as [(e & k1 & w1 & Hrun & [= Hr1 Ht1 Hn1 Hi1] & Htm & Hcf)
       | (cf & w1 & Hrun & [= Hr1 Ht1 Hn1 Hi1])];
    rewrite Hrun in Hr; clear Hrun.
  - subst r. cbn [fst snd]. repeat split; [congruence | lia |].
    left. repeat split; eauto; try congruence. left. congruence.
  - set (k1 := {| _timer := _timer k; connection_file := Some cf |}) in *.
    destruct (start_run_loop_cases k1 w1)
      as (Hcf & Hini & [(H5 & Hrun) | [(H5 & [e He] & Htk & Htm & Hnx & Hrl)
                                      | (H5 & Hret & ms & Hms & Htk & Htm & Hrl)]]).
    + rewrite Hrun in Hr. subst r. cbn [fst snd].
      repeat split; [congruence | lia |].
      right. left. cbn [k1 _timer connection_file].
      repeat split; eauto; congruence.
    + subst r. repeat split; [congruence | lia |].
      left. rewrite Htk, Hcf, Htm, Hrl. cbn [k1 _timer connection_file].
      repeat split; eauto; try congruence.
      right. split; [assumption | congruence].
    + assert (Hnext : next_timer (start_run_loop E (k1, w1)).2.2
                      = Datatypes.S (next_timer w1)).
      { clear Hr. unfold start_run_loop in *. rewrite H5. cbn [negb].
        unfold bind, liftW, app_kernel_do_one_iteration, external,
          poll_interval_ms, register_timer, IPythonKernel.assign_timer, modify
          in *.
        rewrite H5 in Hret. cbn [negb fst snd] in *.
        destruct (kernel_do_one_iteration E (proc w1)) as [[[]|e] p1];
          cbn [fst snd] in *; [|discriminate].
        rewrite Hms. reflexivity. }
      subst r. repeat split; [congruence | lia |].
      right. right. repeat split; [assumption..|].
      exists ms, cf. rewrite Htk, Hcf, Htm, Hrl.
      cbn [k1 _timer connection_file]. repeat split; congruence.
Qed.
End StartCases.

(** ** The scheduling handle *)

(** A [start()] that raises leaves the instance without a scheduling handle
    and the host without a new timer, whatever raised; an instance holds a
    handle after [start()] only if [start()] returned, the engine does not
    manage its own thread, and the handle is the one the host scheduler gave
    for the registered callback. *)
Theorem start_keeps_handle_only_on_success
    (E : Env) (G : Saved) (k : IPythonKernel) (w : world) :
  _timer k = None ->
  (forall e, (IPythonKernel.start E G (k, w)).1 = Raise e ->
             IPythonKernel.started (IPythonKernel.start E G (k, w)).2.1 = false
             /\ timers (IPythonKernel.start E G (k, w)).2.2 = timers w)
  /\ (forall h, _timer (IPythonKernel.start E G (k, w)).2.1 = Some h ->
                (IPythonKernel.start E G (k, w)).1 = Return tt
                /\ is_using_ipykernel_5 E = false
                /\ h = next_timer w
                /\ exists ms,
                    timers (IPythonKernel.start E G (k, w)).2.2
                    = timers w ++ [(h, ms, ipython_kernel_iteration_closure)]).
Proof.
  intros Hk.
  destruct (start_cases E G k w Hk)
    as (_ & _ & [([e' He'] & Ht & _ & Htm & _)
                | [(Hr & H5 & Ht & _ & Htm & _)
                  | (Hr & H5 & ms & cf & Hms & Ht & _ & Htm & _)]]).
  - split.
    + intros e _. unfold IPythonKernel.started. now rewrite Ht.
    + intros h Hh. congruence.
  - split.
    + intros e He. congruence.
    + intros h Hh. congruence.
  - split.
    + intros e He. congruence.
    + intros h Hh. rewrite Ht in Hh. injection Hh as <-. eauto 10.
Qed.

Lemma start_keeps_handle_only_on_success_witness :
  let E := fake_env false ∅ in
  (IPythonKernel.start E ida_saved (IPythonKernel.__init__ E, ida_world)).1
  = Return tt.
Proof.
  intros E.
  apply (start_keeps_handle_only_on_success
           E ida_saved (IPythonKernel.__init__ E) ida_world eq_refl) with (h := 0%nat).
  reflexivity.
Defined.

(** Two facts hold of a new instance and are kept by every [start()] and
    established by every [stop()], with any collaborators: an instance that
    holds a scheduling handle holds a connection file, and the handle it
    holds is a timer registered with the host. *)
Theorem handle_invariants_kept
    (E : Env) (G : Saved) (s : IPythonKernel * world) (w : world) :
  (handle_has_connection (IPythonKernel.__init__ E)
   /\ handle_registered (IPythonKernel.__init__ E, w))
  /\ (handle_has_connection s.1 /\ handle_registered s ->
      handle_has_connection (IPythonKernel.start E G s).2.1
      /\ handle_registered (IPythonKernel.start E G s).2)
  /\ (handle_has_connection (IPythonKernel.stop G s).2.1
      /\ handle_registered (IPythonKernel.stop G s).2).
Proof.
  unfold handle_has_connection, handle_registered.
  split; [|split].
  - split; [intros H; now elim H | intros h [=]].
  - intros [Hc Hr]. destruct s as [k w0].
    destruct (_timer k) as [h0|] eqn:Hk.
    + rewrite start_guard by (unfold IPythonKernel.started; now rewrite Hk).
      split; assumption.
    + destruct (start_cases E G k w0 Hk)
        as (_ & _ & [(_ & Ht & _)
                    | [(_ & _ & Ht & _)
                      | (_ & _ & ms & cf & _ & Ht & Hcf & Htm & _)]]).
      * rewrite Ht. split; [intros H; now elim H | intros h [=]].
      * rewrite Ht. split; [intros H; now elim H | intros h [=]].
      * rewrite Ht, Hcf. split; [discriminate|].
        intros h [= <-]. exists ms, ipython_kernel_iteration_closure.
        cbn [snd]. rewrite Htm. apply elem_of_app. right.
        apply list_elem_of_singleton. reflexivity.
  - destruct (stop_spec G s) as (_ & (_ & _ & Ht & _) & _).
    rewrite Ht. split; [intros H; now elim H | intros h [=]].
Qed.

Lemma handle_invariants_kept_witness :
  let E := fake_env false ∅ in
  handle_has_connection
    (IPythonKernel.start E ida_saved (IPythonKernel.__init__ E, ida_world)).2.1
  /\ handle_registered
       (IPythonKernel.start E ida_saved (IPythonKernel.__init__ E, ida_world)).2.
Proof.
  intros E.
  apply (handle_invariants_kept E ida_saved
           (IPythonKernel.__init__ E, ida_world) ida_world).
  apply (handle_invariants_kept E ida_saved
           (IPythonKernel.__init__ E, ida_world) ida_world).
Defined.

(** ** The run loop, with any collaborators *)

(** Whatever the collaborators do, one [start()] adds to the run-loop history
    nothing, or one processing iteration, or one iteration followed by one
    timer registration: it never registers before iterating, never
    unregisters, never iterates twice.  Under an engine that manages its own
    thread it adds nothing, registers no timer and keeps the instance's
    handle as it was. *)
Theorem start_run_loop_shape
    (E : Env) (G : Saved) (k : IPythonKernel) (w : world) :
  exists evs,
    runloop_events (trace (IPythonKernel.start E G (k, w)).2.2)
    = runloop_events (trace w) ++ evs
    /\ (evs = []
        \/ evs = [EvDoOneIteration]
        \/ exists ms,
            evs = [EvDoOneIteration;
                   EvRegisterTimer ms ipython_kernel_iteration_closure
                     (next_timer w)])
    /\ (is_using_ipykernel_5 E = true ->
        evs = []
        /\ timers (IPythonKernel.start E G (k, w)).2.2 = timers w
        /\ _timer (IPythonKernel.start E G (k, w)).2.1 = _timer k).
Proof.
  destruct (_timer k) as [h0|] eqn:Hk.
  - rewrite start_guard by (unfold IPythonKernel.started; now rewrite Hk).
    exists []. cbn [fst snd]. rewrite app_nil_r. auto.
  - destruct (start_cases E G k w Hk)
      as (_ & _ & [(_ & Ht & _ & Htm & [Hrl | [H5 Hrl]])
                  | [(_ & H5 & Ht & _ & Htm & Hrl)
                    | (_ & H5 & ms & cf & _ & Ht & _ & Htm & Hrl)]]).
    + exists []. rewrite app_nil_r. auto.
    + exists [EvDoOneIteration]. repeat split; auto. congruence.
    + exists []. rewrite app_nil_r. auto.
    + eexists. split; [exact Hrl|]. split; [eauto | congruence].
Qed.

(** ** The engine singleton across restarts *)

Section Restart.
Context (E : Env) (G : Saved).

(** With the singleton in place, [start] never calls [app.initialize]. *)
Lemma start_initialized_no_initialize (k : IPythonKernel) (w : world) :
  app_initialized w = true ->
  initialize_calls (trace (IPythonKernel.start E G (k, w)).2.2)
  = initialize_calls (trace w).
Proof.
  intros Hi. destruct (_timer k) as [h0|] eqn:Hk.
  - now rewrite start_guard by (unfold IPythonKernel.started; now rewrite Hk).
  - rewrite (start_unfold E G k w Hk), Hi.
    destruct (no_initialize_after_creation E G (k, w)) as (evs & Ht & Hn).
    change ((ret tt ;; start_engine E G (start_run_loop E)) (k, w))
      with (start_engine E G (start_run_loop E) (k, w)).
    unfold start_engine, start_run_loop. cbn [snd] in Ht.
    now rewrite Ht, initialize_calls_app, Hn, app_nil_r.
Qed.

(** [stop] keeps the singleton, the hooks and the handles handed out, and
    calls the engine not at all. *)
Lemma stop_keeps (s : IPythonKernel * world) :
  app_initialized (IPythonKernel.stop G s).2.2 = app_initialized s.2
  /\ hooks (IPythonKernel.stop G s).2.2 = hooks s.2
  /\ initialize_calls (trace (IPythonKernel.stop G s).2.2)
     = initialize_calls (trace s.2).
Proof.
  destruct s as [[[h|] cf] w]; cbn; repeat split;
    rewrite ?initialize_calls_app; cbn; now rewrite ?app_nil_r.
Qed.
End Restart.

(** Across [start(); stop(); start()] on an instance of a process with no
    engine singleton yet, [app.initialize] is called exactly once, by the
    first [start()], with any collaborators and even when a call raised; and
    a [start()] that finds the singleton in place never calls it. *)
Theorem initialize_once_across_restart
    (E : Env) (G : Saved) (k : IPythonKernel) (w : world) :
  _timer k = None ->
  app_initialized w = false ->
  initialize_calls
    (trace (IPythonKernel.start E G
              (IPythonKernel.stop G (IPythonKernel.start E G (k, w)).2).2).2.2)
  = initialize_calls (trace w)
    ++ [IPythonKernel.initialize_argv (connection_file k)]
  /\ (forall k' w',
        app_initialized w' = true ->
        initialize_calls (trace (IPythonKernel.start E G (k', w')).2.2)
        = initialize_calls (trace w')).
Proof.
  intros Hk Hi. split; [|intros; now apply start_initialized_no_initialize].
  destruct (start_cases E G k w Hk) as (Hini & _).
  destruct (stop_keeps G (IPythonKernel.start E G (k, w)).2) as (Hs & _ & Hc).
  destruct (IPythonKernel.stop G (IPythonKernel.start E G (k, w)).2)
    as [r [k2 w2]]. cbn [fst snd] in *.
  rewrite start_initialized_no_initialize by congruence.
  rewrite Hc. now apply start_initialize_calls.
Qed.

Lemma initialize_once_across_restart_witness :
  let E := fake_env false ∅ in
  initialize_calls
    (trace (IPythonKernel.start E ida_saved
              (IPythonKernel.stop ida_saved
                 (IPythonKernel.start E ida_saved
                    (IPythonKernel.__init__ E, ida_world)).2).2).2.2)
  = initialize_calls (trace ida_world)
    ++ [IPythonKernel.initialize_argv
          (connection_file (IPythonKernel.__init__ E))].
Proof.
  intros E.
  exact (proj1 (initialize_once_across_restart
                  E ida_saved (IPythonKernel.__init__ E) ida_world
                  eq_refl eq_refl)).
Defined.

(** After a [start()] the module's [do_one_iteration] reaches the engine when
    the engine does not manage its own thread: it makes the engine's
    processing iteration instead of raising "Kernel is not initialized", also
    when that [start()] raised on the way. *)
Theorem do_one_iteration_after_start
    (E : Env) (G : Saved) (k : IPythonKernel) (w : world) :
  _timer k = None ->
  is_using_ipykernel_5 E = false ->
  trace (do_one_iteration E (IPythonKernel.start E G (k, w)).2.2).2
  = trace (IPythonKernel.start E G (k, w)).2.2 ++ [EvDoOneIteration]
  /\ (do_one_iteration E (IPythonKernel.start E G (k, w)).2.2).1
     = (kernel_do_one_iteration E
          (proc (IPythonKernel.start E G (k, w)).2.2)).1.
Proof.
  intros Hk H5. destruct (start_cases E G k w Hk) as (Hini & _).
  unfold do_one_iteration, app_kernel_do_one_iteration.
  rewrite H5. unfold bind, gets, external. cbn [fst snd]. rewrite Hini.
  now destruct (kernel_do_one_iteration E _).
Qed.

Lemma do_one_iteration_after_start_witness :
  let E := fake_env false ∅ in
  (do_one_iteration E
     (IPythonKernel.start E ida_saved
        (IPythonKernel.__init__ E, ida_world)).2.2).1
  = Return tt.
Proof.
  intros E.
  apply (do_one_iteration_after_start
           E ida_saved (IPythonKernel.__init__ E) ida_world eq_refl eq_refl).
Defined.

(** ** What the module itself never assigns *)

Section FieldKept.
Context {X : Type} (g : process -> X) (E : Env) (G : Saved).
Context (HK : engine_keeps g E).

Lemma preserves_field_external {A} ev (op : process -> outcome A * process) :
  keeps g op -> preserves (fun w => g (proc w)) (external ev op).
Proof.
  intros Hop w. unfold external. specialize (Hop (proc w)).
  now destruct (op (proc w)) as [r p].
Qed.

Lemma preserves_field_pyobj_write o s :
  preserves (fun w => g (proc w)) (pyobj_write E o s).
Proof.
  destruct o; [apply preserves_raise | |];
    apply preserves_field_external, keeps_obj_write, HK.
Qed.

Lemma preserves_field_write name s :
  preserves (fun w => g (proc w)) (IDATeeOutStream.write E G name s).
Proof.
  rewrite write_unfold. apply preserves_bind.
  - destruct (truthy _);
      [apply preserves_field_pyobj_write | apply preserves_ret].
  - intros _. apply preserves_field_external, keeps_OutStream_write, HK.
Qed.

Lemma preserves_field_print s :
  preserves (fun w => g (proc w)) (print E G s).
Proof.
  assert (Hw : forall f t,
             preserves (fun w => g (proc w)) (stream_write E G f t)).
  { intros [o|name] t;
      [apply preserves_field_pyobj_write | apply preserves_field_write]. }
  intros w. unfold print. destruct (sys_stdout (proc w)) as [[|id|id]|name].
  - reflexivity.
  - apply (preserves_bind (fun w => g (proc w))); auto.
  - apply (preserves_bind (fun w => g (proc w))); auto.
  - apply (preserves_bind (fun w => g (proc w))); auto.
Qed.

Lemma preserves_field_register_timer ms cb :
  preserves (fun w => g (proc w)) (register_timer ms cb).
Proof. intros w. reflexivity. Qed.

Ltac field_kept :=
  repeat first
    [ apply preserves_bind; [|intros ?]
    | apply (preserves_liftW (fun w => g (proc w)))
    | apply preserves_field_external;
      first [ apply keeps_set_completer_frame
            | apply keeps_kernel_start
            | apply keeps_do_one_iteration ]; exact HK
    | apply preserves_field_print
    | apply preserves_field_register_timer
    | apply preserves_gets
    | apply preserves_ret
    | apply preserves_modify; intros ?; reflexivity
    | match goal with |- context [if ?b then _ else _] => destruct b end
    | intros ?; reflexivity ].

(** Lines 159-165 assign nothing of the process. *)
Lemma preserves_field_run_loop :
  preserves (fun s : IPythonKernel * world => g (proc s.2)) (start_run_loop E).
Proof.
  unfold start_run_loop, app_kernel_do_one_iteration,
    IPythonKernel.assign_timer.
  field_kept.
Qed.

(** Nor do lines 151-165. *)
Lemma preserves_field_after_creation :
  preserves (fun s : IPythonKernel * world => g (proc s.2))
    (start_engine E G (start_run_loop E)).
Proof.
  unfold start_engine, start_run_loop, app_kernel_do_one_iteration,
    IPythonKernel.assign_connection_file, IPythonKernel.assign_timer.
  field_kept.
Qed.

(** So [start] past its guard changes [g] at most where it creates the
    singleton. *)
Lemma start_field (k : IPythonKernel) (w : world) :
  _timer k = None ->
  g (proc (IPythonKernel.start E G (k, w)).2.2)
  = if app_initialized w then g (proc w)
    else g (proc (IPythonKernel.create_app E G (connection_file k) w).2).
Proof.
  intros Hk. rewrite (start_unfold E G k w Hk).
  destruct (app_initialized w).
  - apply (preserves_field_after_creation (k, w)).
  - unfold bind at 1, liftW at 1. cbn [fst snd].
    destruct (IPythonKernel.create_app E G (connection_file k) w)
      as [[[]|e] w1]; cbn [fst snd]; [|reflexivity].
    apply (preserves_field_after_creation (k, w1)).
Qed.
End FieldKept.

(** What the first creation of the singleton leaves in the two hook slots:
    the wrapped hooks when [app.initialize] returned, the engine's own when it
    raised. *)
Lemma create_app_hooks (E : Env) (G : Saved) cf w :
  hooks (IPythonKernel.create_app E G cf w).2
  = match app_initialize E (IPythonKernel.initialize_argv cf)
            (if path_exists E (IPYIDARC_PATH E)
             then set_exec_files [IPYIDARC_PATH E] (proc w)
             else proc w) with
    | (Return _, p) =>
        (wrap_excepthook G (sys_excepthook p),
         wrap_displayhook G (sys_displayhook p))
    | (Raise _, p) => (sys_excepthook p, sys_displayhook p)
    end.
Proof.
  unfold IPythonKernel.create_app, hooks, sys_hooks.
  destruct (path_exists E (IPYIDARC_PATH E)); run;
    (destruct (app_initialize E _ _) as [[[]|e] p1]; simpl;
     [destruct (_orig_sys_modules_main_mod p1); reflexivity | reflexivity]).
Qed.

(** ** The hooks across restarts *)

(** With an engine whose calls other than [app.initialize] leave
    [sys.excepthook] and [sys.displayhook] alone: the [start()] that creates
    the singleton installs each IDA hook wrapped once around the hook
    [app.initialize] left; a [start()] that finds the singleton in place
    leaves both hooks as they are; and so after [start(); stop(); start()] the
    hooks are those the first [start()] installed, not wrapped again. *)
Theorem hooks_wrapped_once
    (E : Env) (G : Saved) (k : IPythonKernel) (w : world) (p1 : process) :
  engine_keeps sys_hooks E ->
  _timer k = None ->
  (app_initialized w = false ->
   app_initialize E (IPythonKernel.initialize_argv (connection_file k))
     (if path_exists E (IPYIDARC_PATH E)
      then set_exec_files [IPYIDARC_PATH E] (proc w)
      else proc w) = (Return tt, p1) ->
   hooks (IPythonKernel.start E G (k, w)).2.2
   = (ipyida_excepthook (_ida_excepthook G) (sys_excepthook p1),
      ipyida_displayhook (_ida_displayhook G) (sys_displayhook p1)))
  /\ (app_initialized w = true ->
      hooks (IPythonKernel.start E G (k, w)).2.2 = hooks w)
  /\ hooks (IPythonKernel.start E G
              (IPythonKernel.stop G (IPythonKernel.start E G (k, w)).2).2).2.2
     = hooks (IPythonKernel.start E G (k, w)).2.2.
Proof.
  intros HN Hk. split; [|split].
  - intros Hi Hinit. unfold hooks at 1.
    rewrite (start_field sys_hooks E G HN k w Hk), Hi.
    fold (hooks (IPythonKernel.create_app E G (connection_file k) w).2).
    rewrite (create_app_hooks E G), Hinit. reflexivity.
  - intros Hi. unfold hooks.
    now rewrite (start_field sys_hooks E G HN k w Hk), Hi.
  - destruct (start_cases E G k w Hk) as (Hini & _).
    destruct (stop_keeps G (IPythonKernel.start E G (k, w)).2) as (Hs & Hh & _).
    destruct (stop_spec G (IPythonKernel.start E G (k, w)).2)
      as (_ & (_ & _ & Ht & _) & _).
    destruct (IPythonKernel.stop G (IPythonKernel.start E G (k, w)).2)
      as [r [k2 w2]]. cbn [fst snd] in *.
    unfold hooks at 1. rewrite (start_field sys_hooks E G HN k2 w2 Ht).
    replace (app_initialized w2) with true by congruence. exact Hh.
Qed.

Lemma fake_env_keeps {X} (g : process -> X) ipykernel_5 env :
  engine_keeps g (fake_env ipykernel_5 env).
Proof. split; intros; intro; reflexivity. Qed.

Lemma hooks_wrapped_once_witness :
  let E := fake_env false ∅ in
  hooks (IPythonKernel.start E ida_saved (IPythonKernel.__init__ E, ida_world)).2.2
  = (ipyida_excepthook (Extern 5) (Extern 10),
     ipyida_displayhook (Extern 6) (Extern 11)).
Proof.
  intros E.
  apply (hooks_wrapped_once E ida_saved (IPythonKernel.__init__ E) ida_world
           (fake_initialize None ida_process).2);
    first [reflexivity | split; intros; intro; reflexivity].
Defined.

(** ** Start, then stop, and the host's timers *)

Lemma filter_out_fresh_handle (l : list (nat * Z * timer_callback))
    (h : nat) (ms : Z) (cb : timer_callback) :
  Forall (fun t => (t.1.1 < h)%nat) l ->
  filter (fun t => t.1.1 ≠ h) (l ++ [(h, ms, cb)]) = l.
Proof.
  intros Hl. rewrite filter_app.
  replace (filter (fun t => t.1.1 ≠ h) [(h, ms, cb)]) with
    (@nil (nat * Z * timer_callback)).
  - rewrite app_nil_r. induction Hl as [|t l Ht Hl IH]; [reflexivity|].
    rewrite filter_cons_True by (simpl in *; lia). now rewrite IH.
  - rewrite filter_cons_False by (simpl; congruence). reflexivity.
Qed.

(** In manual-iteration mode, with collaborators that return and a host whose
    handles so far are below the next one, [stop()] after [start()] cancels
    exactly the timer that [start()] registered: the host's timers are again
    those from before the [start()], and the instance is not started. *)
Theorem start_then_stop_leaves_timers
    (E : Env) (G : Saved) (k : IPythonKernel) (w : world) (ms : Z) :
  cooperative E ->
  is_using_ipykernel_5 E = false ->
  _timer k = None ->
  py_int (1000 * _poll_interval E)%float = Return ms ->
  fresh_handles w ->
  timers (IPythonKernel.stop G (IPythonKernel.start E G (k, w)).2).2.2
  = timers w
  /\ IPythonKernel.started
       (IPythonKernel.stop G (IPythonKernel.start E G (k, w)).2).2.1 = false
  /\ runloop_events
       (trace (IPythonKernel.stop G (IPythonKernel.start E G (k, w)).2).2.2)
     = runloop_events (trace w)
       ++ [EvDoOneIteration;
           EvRegisterTimer ms ipython_kernel_iteration_closure (next_timer w);
           EvUnregisterTimer (next_timer w)].
Proof.
  intros HE H5 Hk Hms Hfresh.
  destruct (start_poll_driven E G k w ms HE H5 Hk Hms) as (_ & Hrl & Htm & Ht).
  destruct (stop_spec G (IPythonKernel.start E G (k, w)).2)
    as (_ & (_ & _ & Hnone & _) & Htr & Hst).
  rewrite Ht in Htr, Hst. split; [|split].
  - rewrite Hst, Htm. now apply filter_out_fresh_handle.
  - unfold IPythonKernel.started. now rewrite Hnone.
  - rewrite Htr, runloop_events_snoc, Hrl. cbn [is_runloop_event].
    now rewrite <- app_assoc.
Qed.

Lemma start_then_stop_leaves_timers_witness :
  let E := fake_env false ∅ in
  let w := {| proc := ida_process; app_initialized := false;
              timers := [(0%nat, 20%Z, ipython_kernel_iteration_closure)];
              next_timer := 1; trace := [] |} in
  timers (IPythonKernel.stop ida_saved
            (IPythonKernel.start E ida_saved (IPythonKernel.__init__ E, w)).2).2.2
  = [(0%nat, 20%Z, ipython_kernel_iteration_closure)].
Proof.
  intros E w.
  apply (start_then_stop_leaves_timers
           E ida_saved (IPythonKernel.__init__ E) w 50).
  - split; intros; intro; reflexivity.
  - reflexivity.
  - reflexivity.
  - reflexivity.
  - repeat constructor.
Defined.

(** ** The connection file that [start] records *)

(** When [start()] returns, the instance's [connection_file] is the engine's
    [app.connection_file]: the value read after [app.kernel.start()] is the
    one recorded.  The writes of the banner and the processing iteration that
    follow are taken to leave the engine's connection file alone. *)
Theorem start_records_engine_connection_file
    (E : Env) (G : Saved) (k : IPythonKernel) (w : world) :
  engine_keeps app_connection_file E ->
  _timer k = None ->
  (IPythonKernel.start E G (k, w)).1 = Return tt ->
  connection_file (IPythonKernel.start E G (k, w)).2.1
  = Some (app_connection_file (proc (IPythonKernel.start E G (k, w)).2.2)).
Proof.
  intros HK Hk.
  remember (IPythonKernel.start E G (k, w)) as r eqn:Hr.
  rewrite (start_unfold E G k w Hk) in Hr.
  unfold bind at 1 in Hr.
  assert (Hself : ((if app_initialized w then ret tt
                    else liftW (IPythonKernel.create_app E G (connection_file k)))
                     (k, w)).2.1 = k).
  { destruct (app_initialized w); [reflexivity | apply liftW_self]. }
  destruct ((if app_initialized w then ret tt
             else liftW (IPythonKernel.create_app E G (connection_file k)))
              (k, w)) as [[[]|e] [k0 w0]];
    cbn [fst snd] in Hself; subst k0; [|subst r; discriminate].
  unfold start_engine in Hr. rewrite bind_liftW in Hr.
  destruct (external EvSetCompleterFrame (shell_set_completer_frame E) w0)
    as [[[]|e] w1]; [|subst r; discriminate].
  rewrite bind_liftW in Hr.
  destruct (external EvKernelStart (kernel_start E) w1)
    as [[[]|e] w2]; [|subst r; discriminate].
  unfold bind at 1, gets at 1 in Hr. cbn [fst snd] in Hr.
  unfold bind at 1, IPythonKernel.assign_connection_file, modify in Hr.
  cbn [fst snd] in Hr. rewrite bind_liftW in Hr.
  pose proof (preserves_field_print app_connection_file E G HK
                (IPythonKernel.banner +:+ app_connection_file (proc w2)) w2)
    as Hprint.
  destruct (print E G (IPythonKernel.banner +:+ app_connection_file (proc w2))
              w2) as [[[]|e] w3]; [|subst r; discriminate].
  cbn [fst snd] in Hprint.
  set (k1 := {| _timer := _timer k;
                connection_file := Some (app_connection_file (proc w2)) |})
    in Hr.
  pose proof (preserves_field_run_loop app_connection_file E HK (k1, w3))
    as Hloop.
  destruct (start_run_loop_cases E k1 w3) as (Hcf & _).
  subst r. intros _. rewrite Hcf. cbn [k1 connection_file].
  cbn [snd] in Hloop. congruence.
Qed.

Lemma start_records_engine_connection_file_witness :
  let E := fake_env true {["JUPYTER_CONNECTION" := "ida.json"]} in
  connection_file
    (IPythonKernel.start E ida_saved (IPythonKernel.__init__ E, ida_world)).2.1
  = Some (app_connection_file
            (proc (IPythonKernel.start E ida_saved
                     (IPythonKernel.__init__ E, ida_world)).2.2)).
Proof.
  intros E.
  apply (start_records_engine_connection_file
           E ida_saved (IPythonKernel.__init__ E) ida_world);
    first [reflexivity | split; intros; intro; reflexivity].
Defined.

(** ** The user's init file *)

Lemma create_app_process (E : Env) (G : Saved) {X} (g : process -> X) cf w :
  (forall m p, g (set_sys_modules m p) = g p) ->
  (forall h p, g (set_sys_excepthook h p) = g p) ->
  (forall h p, g (set_sys_displayhook h p) = g p) ->
  g (proc (IPythonKernel.create_app E G cf w).2)
  = g (app_initialize E (IPythonKernel.initialize_argv cf)
         (if path_exists E (IPYIDARC_PATH E)
          then set_exec_files [IPYIDARC_PATH E] (proc w)
          else proc w)).2.
Proof.
  intros Hm He Hd. unfold IPythonKernel.create_app.
  destruct (path_exists E (IPYIDARC_PATH E)); run;
    (destruct (app_initialize E _ _) as [[[]|e] p1]; simpl;
     [destruct (_orig_sys_modules_main_mod p1); simpl;
      now rewrite ?Hd, ?He, ?Hm
     | reflexivity]).
Qed.

(** [IPKernelApp.exec_files] is set by the [start()] that creates the engine
    singleton, to the one path [IPYIDARC_PATH], and only when that file
    exists; no other [start()] assigns it.  The engine's calls are taken to
    leave [exec_files] alone. *)
Theorem exec_files_set_on_first_creation
    (E : Env) (G : Saved) (k : IPythonKernel) (w : world) :
  engine_keeps exec_files E ->
  (forall argv, keeps exec_files (app_initialize E argv)) ->
  _timer k = None ->
  exec_files (proc (IPythonKernel.start E G (k, w)).2.2)
  = if app_initialized w then exec_files (proc w)
    else if path_exists E (IPYIDARC_PATH E) then [IPYIDARC_PATH E]
         else exec_files (proc w).
Proof.
  intros HK Hinit Hk. rewrite (start_field exec_files E G HK k w Hk).
  destruct (app_initialized w); [reflexivity|].
  rewrite (create_app_process E G exec_files) by reflexivity.
  rewrite Hinit. now destruct (path_exists E (IPYIDARC_PATH E)).
Qed.

Lemma exec_files_set_on_first_creation_witness :
  let E := fake_env false ∅ in
  exec_files
    (proc (IPythonKernel.start E ida_saved
             (IPythonKernel.__init__ E, ida_world)).2.2)
  = if app_initialized ida_world then exec_files (proc ida_world)
    else if path_exists E (IPYIDARC_PATH E) then [IPYIDARC_PATH E]
         else exec_files (proc ida_world).
Proof.
  intros E.
  apply (exec_files_set_on_first_creation
           E ida_saved (IPythonKernel.__init__ E) ida_world);
    first [reflexivity | split; intros; intro; reflexivity
          | intros; intro; reflexivity].
Defined.

(** ** The registration of [__main__] *)

Lemma create_app_modules (E : Env) (G : Saved) cf w :
  sys_modules (proc (IPythonKernel.create_app E G cf w).2)
  = match app_initialize E (IPythonKernel.initialize_argv cf)
            (if path_exists E (IPYIDARC_PATH E)
             then set_exec_files [IPYIDARC_PATH E] (proc w)
             else proc w) with
    | (Return _, p) =>
        match _orig_sys_modules_main_mod p with
        | Some m => <[_orig_sys_modules_main_name p := m]> (sys_modules p)
        | None => sys_modules p
        end
    | (Raise _, p) => sys_modules p
    end.
Proof.
  unfold IPythonKernel.create_app.
  destruct (path_exists E (IPYIDARC_PATH E)); run;
    (destruct (app_initialize E _ _) as [[[]|e] p1]; simpl;
     [destruct (_orig_sys_modules_main_mod p1); reflexivity | reflexivity]).
Qed.

(** The [start()] that creates the engine singleton puts back the module the
    shell remembers as the original main module: once [app.initialize] has
    returned with such a module [m] under the name [name], [sys.modules[name]]
    is [m] after [start()], and every other entry of [sys.modules] is as
    [app.initialize] left it.  The engine's other calls are taken to leave
    [sys.modules] alone. *)
Theorem start_restores_main_module
    (E : Env) (G : Saved) (k : IPythonKernel) (w : world)
    (p1 : process) (m : pymodule) :
  engine_keeps sys_modules E ->
  _timer k = None ->
  app_initialized w = false ->
  app_initialize E (IPythonKernel.initialize_argv (connection_file k))
    (if path_exists E (IPYIDARC_PATH E)
     then set_exec_files [IPYIDARC_PATH E] (proc w)
     else proc w) = (Return tt, p1) ->
  _orig_sys_modules_main_mod p1 = Some m ->
  sys_modules (proc (IPythonKernel.start E G (k, w)).2.2)
    !! _orig_sys_modules_main_name p1 = Some m
  /\ (forall key, key <> _orig_sys_modules_main_name p1 ->
        sys_modules (proc (IPythonKernel.start E G (k, w)).2.2) !! key
        = sys_modules p1 !! key).
Proof.
  intros HK Hk Hi Hinit Hm.
  rewrite (start_field sys_modules E G HK k w Hk), Hi.
  rewrite create_app_modules, Hinit, Hm. split.
  - apply lookup_insert_eq.
  - intros key Hne. now apply lookup_insert_ne.
Qed.

Lemma start_restores_main_module_witness :
  let E := fake_env false ∅ in
  sys_modules
    (proc (IPythonKernel.start E ida_saved
             (IPythonKernel.__init__ E, ida_world)).2.2)
    !! _orig_sys_modules_main_name (fake_initialize None ida_process).2
  = Some ida_main.
Proof.
  intros E.
  apply (start_restores_main_module
           E ida_saved (IPythonKernel.__init__ E) ida_world
           (fake_initialize None ida_process).2 ida_main);
    first [reflexivity | split; intros; intro; reflexivity].
Defined.

(** ** Two calls of [start] in succession *)

Section AfterSetCompleterFrame.
Context (E : Env) (G : Saved).

(** Lines 153-165 only add to the trace. *)
Lemma no_initialize_after_set_completer_frame :
  no_initialize (fun s : IPythonKernel * world => trace s.2)
    (liftW (external EvKernelStart (kernel_start E)) ;;
     cf <- gets (fun s => app_connection_file (proc s.2)) ;;
     IPythonKernel.assign_connection_file (Some cf) ;;
     liftW (print E G (IPythonKernel.banner +:+ cf)) ;;
     start_run_loop E).
Proof.
  unfold start_run_loop.
  repeat first
    [ apply no_initialize_bind; [|intros ?]
    | apply no_initialize_liftW
    | apply no_initialize_external; reflexivity
    | apply no_initialize_print
    | apply no_initialize_register_timer
    | apply no_initialize_poll_interval_ms
    | apply no_initialize_gets
    | apply no_initialize_ret
    | apply no_initialize_modify; intros ?; reflexivity
    | match goal with |- context [if ?b then _ else _] => destruct b end ].
Qed.

(** A [start()] without a handle, on a process that has the singleton, goes
    straight to the engine: its first call is [set_completer_frame]. *)
Lemma start_again_reaches_engine (k : IPythonKernel) (w : world) :
  _timer k = None ->
  app_initialized w = true ->
  exists evs,
    trace (IPythonKernel.start E G (k, w)).2.2
    = trace w ++ EvSetCompleterFrame :: evs.
Proof.
  intros Hk Hi. rewrite (start_unfold E G k w Hk), Hi.
  change ((ret tt ;; start_engine E G (start_run_loop E)) (k, w))
    with (start_engine E G (start_run_loop E) (k, w)).
  unfold start_engine. rewrite bind_liftW. unfold external at 1.
  destruct (shell_set_completer_frame E (proc w)) as [[[]|e] p1].
  - destruct (no_initialize_after_set_completer_frame
                (k, set_proc p1 (log EvSetCompleterFrame w)))
      as (evs & Ht & _).
    exists evs. cbn [snd] in Ht. rewrite Ht. cbn [set_proc log trace].
    now rewrite <- app_assoc.
  - exists []. reflexivity.
Qed.
End AfterSetCompleterFrame.

(** C3: what the code does when [start()] is called again.  An instance that
    holds a scheduling handle ([started]) refuses it with "IPython kernel is
    already running." and nothing changes.  After a [start()] that returned
    in manual-iteration mode the instance holds the handle the host gave, so
    the second [start()] is refused, as the claim says.  After a [start()]
    that returned under an engine with its own thread (ipykernel 5 and later)
    the instance holds no handle: the second [start()] passes the guard and
    calls the engine again, which the claim excludes.  Collaborators are
    arbitrary. *)
Theorem start_twice_in_succession
    (E : Env) (G : Saved) (k : IPythonKernel) (w : world) :
  (IPythonKernel.started k = true ->
   IPythonKernel.start E G (k, w)
   = (Raise (Exception "IPython kernel is already running."), (k, w)))
  /\ (_timer k = None ->
      (IPythonKernel.start E G (k, w)).1 = Return tt ->
      is_using_ipykernel_5 E = false ->
      IPythonKernel.started (IPythonKernel.start E G (k, w)).2.1 = true
      /\ IPythonKernel.start E G (IPythonKernel.start E G (k, w)).2
         = (Raise (Exception "IPython kernel is already running."),
            (IPythonKernel.start E G (k, w)).2))
  /\ (_timer k = None ->
      (IPythonKernel.start E G (k, w)).1 = Return tt ->
      is_using_ipykernel_5 E = true ->
      IPythonKernel.started (IPythonKernel.start E G (k, w)).2.1 = false
      /\ (exists evs,
            trace (IPythonKernel.start E G
                     (IPythonKernel.start E G (k, w)).2).2.2
            = trace (IPythonKernel.start E G (k, w)).2.2
              ++ EvSetCompleterFrame :: evs)
      /\ IPythonKernel.start E G (IPythonKernel.start E G (k, w)).2
         <> (Raise (Exception "IPython kernel is already running."),
             (IPythonKernel.start E G (k, w)).2)).
Proof.
  split; [apply start_guard | split].
  - intros Hk Hret H5.
    destruct (start_cases E G k w Hk)
      as (_ & _ & [([e He] & _) | [(_ & H5' & _)
                                  | (_ & _ & ms & cf & _ & Ht & _)]]);
      [congruence | congruence |].
    destruct (IPythonKernel.start E G (k, w)) as [r [k1 w1]].
    cbn [fst snd] in *.
    assert (Hs : IPythonKernel.started k1 = true).
    { unfold IPythonKernel.started. now rewrite Ht. }
    split; [exact Hs | now apply start_guard].
  - intros Hk Hret H5.
    destruct (start_cases E G k w Hk)
      as (Hini & _ & [([e He] & _) | [(_ & _ & Ht & _)
                                     | (_ & H5' & _)]]);
      [congruence | | congruence].
    destruct (IPythonKernel.start E G (k, w)) as [r [k1 w1]].
    cbn [fst snd] in *.
    destruct (start_again_reaches_engine E G k1 w1 Ht Hini) as (evs & Hevs).
    split; [unfold IPythonKernel.started; now rewrite Ht |].
    split; [now exists evs |].
    intros Heq. rewrite Heq in Hevs. cbn [fst snd] in Hevs.
    rewrite <- (app_nil_r (trace w1)) in Hevs at 1.
    apply app_inv_head in Hevs. discriminate.
Qed.

Lemma start_twice_in_succession_witness :
  let E := fake_env true ∅ in
  IPythonKernel.start E ida_saved
    (IPythonKernel.start E ida_saved (IPythonKernel.__init__ E, ida_world)).2
  <> (Raise (Exception "IPython kernel is already running."),
      (IPythonKernel.start E ida_saved
         (IPythonKernel.__init__ E, ida_world)).2).
Proof.
  intros E.
  apply (start_twice_in_succession E ida_saved (IPythonKernel.__init__ E)
           ida_world); reflexivity.
Defined.
